(** * vue-comments: the comment widget's request/response logic

    A shallow embedding of the [<script setup>] blocks of the repository's
    Vue components:

    - the reCAPTCHA variant ([fetchRecaptchaConfig], [getRecaptchaToken],
      [fetchComments], [submitComment], [handleReplyClick], [cancelReply],
      [onMounted]), in [Module Recaptcha];
    - [src/components/VueComments.vue] ([fetchComments], [submitComment]),
      in [Module Basic].

    Every [async] function is a term of a small free monad [prog]: reactive
    refs are read and written through [Read] and [Modify], every [await] is
    an [Await] node at which the function is suspended until the promise
    settles, and [try]/[catch]/[finally] are the combinators [try_catch] and
    [try_finally].  The network, the reCAPTCHA library and the bodies of the
    responses are an environment [env] the theorems quantify over, and the
    built-in [String.prototype.toUpperCase] of the JavaScript engine is a
    parameter, [Runtime]. *)

From Stdlib Require Import ZArith List String Ascii Bool Lia.
Import ListNotations.
Open Scope list_scope.
Open Scope string_scope.

Set Implicit Arguments.

(* ================================================================== *)
(** * JavaScript values *)
(* ================================================================== *)

(** The values a parsed JSON body, a ref or a form entry can hold.  JSON
    numbers are kept as integers: only their being zero or not is ever
    inspected by the components. *)
#[local] Unset Elimination Schemes.
Inductive value : Type :=
| VUndefined
| VNull
| VBool (b : bool)
| VNum (n : Z)
| VStr (s : string)
| VObj (fields : list (string * value))
| VArr (items : list value).
#[local] Set Elimination Schemes.

(** What a rejected promise or a failing expression throws. *)
Inductive error : Type :=
| TypeError
| SyntaxError
| NetworkError
| Failure (reason : string).

(** JavaScript truthiness ([if (v)], [v || d], [!v]). *)
Definition truthy (v : value) : bool :=
  match v with
  | VUndefined | VNull => false
  | VBool b => b
  | VNum n => negb (n =? 0)%Z
  | VStr s => negb (s =? "")
  | VObj _ | VArr _ => true
  end.

(** [a || b]. *)
Definition js_or (a b : value) : value := if truthy a then a else b.

(** Own-property lookup in an object literal or parsed object. *)
Fixpoint lookup (k : string) (fields : list (string * value)) : option value :=
  match fields with
  | [] => None
  | (k', v) :: rest => if k' =? k then Some v else lookup k rest
  end.

(** [v.k] for the property names the components read ([message],
    [approved], [enabled], [site_key], [count], [rendered]): a [TypeError]
    on [null] and [undefined], the property of an object, and [undefined]
    on everything else. *)
Definition get_prop (v : value) (k : string) : error + value :=
  match v with
  | VUndefined | VNull => inl TypeError
  | VObj fields =>
      inr (match lookup k fields with Some x => x | None => VUndefined end)
  | VBool _ | VNum _ | VStr _ | VArr _ => inr VUndefined
  end.

(** [v?.k]: optional chaining yields [undefined] instead of throwing. *)
Definition get_prop_opt (v : value) (k : string) : value :=
  match get_prop v k with inl _ => VUndefined | inr x => x end.

(** What the component uses of the JavaScript engine:
    [String.prototype.toUpperCase].  It is no code of the repository and
    depends on Unicode case mapping, so it is a parameter of the model; no
    statement below assumes more about it than it says. *)
Class Runtime : Type := mkRuntime {
  toUpperCase : string -> string
}.

(** An engine to evaluate examples with: it upper-cases the letters a to z
    and leaves every other character alone, which is what
    [String.prototype.toUpperCase] does on ASCII text. *)
Definition upper_ascii (c : ascii) : ascii :=
  let n := nat_of_ascii c in
  if (97 <=? n)%nat && (n <=? 122)%nat then ascii_of_nat (n - 32) else c.

Fixpoint toUpperCase_ascii (s : string) : string :=
  match s with
  | EmptyString => EmptyString
  | String c rest => String (upper_ascii c) (toUpperCase_ascii rest)
  end.

Definition ascii_engine : Runtime := mkRuntime toUpperCase_ascii.

(** [Array.prototype.includes] on an array of strings. *)
Fixpoint includes (xs : list string) (x : string) : bool :=
  match xs with
  | [] => false
  | y :: rest => (y =? x) || includes rest x
  end.

(* ================================================================== *)
(** * Requests, responses and the environment *)
(* ================================================================== *)

Inductive http_method : Type := GET | POST.

(** The two arguments of [fetch(url, init)].  [body] is the object handed
    to [JSON.stringify], kept unserialised. *)
Record request : Type := mkRequest {
  url : string;
  method : http_method;
  headers : list (string * string);
  body : option value
}.

(** A settled [Response]: [json] is what [await response.json()] gives,
    a parsed value or the rejection raised for a body that is not JSON. *)
Record response : Type := mkResponse {
  ok : bool;
  status : Z;
  statusText : string;
  json : error + value
}.

(** The object [load(site_key)] of [recaptcha-v3] resolves to. *)
Inductive recaptcha : Type := ReCaptchaInstance (site_key : value).

(** Everything outside the component.  The first argument is the number of
    answers the environment has given the page so far, so that the same
    request may be answered differently at different times. *)
Record env : Type := mkEnv {
  net : nat -> request -> error + response;
  recaptcha_load : nat -> value -> error + recaptcha;
  recaptcha_execute : nat -> recaptcha -> string -> error + value
}.

(** Second argument of [console.error(label, ...)]. *)
Inductive log_detail : Type :=
| LError (e : error)
| LStatus (code : Z) (text : string).

(** The body of the [setTimeout] callback of [handleReplyClick]. *)
Inductive timer_callback : Type := ScrollToForm (element_id focus_selector : string).

(** What an observer of the page sees, in order. *)
Inductive obs : Type :=
| ORequest (rq : request)
| OResponse (rq : request) (r : error + response)
| OJsonStart
| OJsonDone (r : error + value)
| OLoadStart (site_key : value)
| OLoadDone (r : error + recaptcha)
| OExecuteStart (action : string)
| OExecuteDone (r : error + value)
| OConsoleError (label : string) (detail : log_detail)
| OPreventDefault
| OFormReset
| OSetTimeout (cb : timer_callback) (ms : Z).

(** The values the three visible controls of the comment form hold: what
    the browser keeps of the visitor's typing (an [email] input, for one,
    holds the text without surrounding white space). *)
Record form : Type := mkForm {
  author_name : string;
  author_email : string;
  content : string
}.

(** [form.reset()]: the three controls have no [value] attribute, so they
    go back to the empty string. *)
Definition blank_form : form := mkForm "" "" "".

(** The browser's validation of the form before it dispatches [submit]:
    each of the three controls is [required], which a non-empty value
    satisfies, and the [email] control must hold an address; whether it
    does is the browser's verdict [email_ok]. *)
Definition form_valid (email_ok : bool) (f : form) : bool :=
  negb (author_name f =? "") && negb (author_email f =? "")
  && negb (content f =? "") && email_ok.

(** [new FormData(form)]: the entry list, names to text. *)
Definition formdata : Type := list (string * string).

Fixpoint formdata_get (fd : formdata) (name : string) : value :=
  match fd with
  | [] => VNull
  | (n, v) :: rest => if n =? name then VStr v else formdata_get rest name
  end.

(** A submit event; [target] is the form's entry list at dispatch. *)
Record submit_event : Type := mkSubmit { target : formdata }.

(** A click on a reply link: the two [data-] attributes of its target
    ([getAttribute] gives [null], here [None], for an absent one). *)
Record click_event : Type := mkClick {
  data_commentid : option string;
  data_replyto : option string
}.

(* ================================================================== *)
(** * Programs *)
(* ================================================================== *)

Section Programs.

(** The component's refs. *)
Context {St : Type}.

(** Synchronous operations. *)
Inductive effect : Type -> Type :=
| Read : effect St
| Modify (f : St -> St) : effect unit
| ConsoleError (label : string) (detail : log_detail) : effect unit
| PreventDefault : effect unit
| FormReset : effect unit
| SetTimeout (cb : timer_callback) (ms : Z) : effect unit.

(** Promises the component awaits. *)
Inductive call : Type -> Type :=
| CFetch (rq : request) : call response
| CJson (r : response) : call value
| CLoad (site_key : value) : call recaptcha
| CExecute (i : recaptcha) (action : string) : call value
| COwnPromise : call unit.

Inductive prog (A : Type) : Type :=
| Ret (a : A)
| Throw (e : error)
| Do {X : Type} (op : effect X) (k : X -> prog A)
| Await {X : Type} (c : call X) (k : error + X -> prog A).

Arguments Ret {A} a.
Arguments Throw {A} e.

Fixpoint bind {A B : Type} (p : prog A) (f : A -> prog B) : prog B :=
  match p with
  | Ret a => f a
  | Throw e => Throw e
  | Do op k => Do op (fun x => bind (k x) f)
  | Await c k => Await c (fun r => bind (k r) f)
  end.

(** [try { p } catch (e) { h e }]. *)
Fixpoint try_catch {A : Type} (p : prog A) (h : error -> prog A) : prog A :=
  match p with
  | Ret a => Ret a
  | Throw e => h e
  | Do op k => Do op (fun x => try_catch (k x) h)
  | Await c k => Await c (fun r => try_catch (k r) h)
  end.

(** [try { p } finally { fin }]: [fin] runs on every way out of [p]. *)
Fixpoint try_finally {A : Type} (p : prog A) (fin : prog unit) : prog A :=
  match p with
  | Ret a => bind fin (fun _ => Ret a)
  | Throw e => bind fin (fun _ => Throw e)
  | Do op k => Do op (fun x => try_finally (k x) fin)
  | Await c k => Await c (fun r => try_finally (k r) fin)
  end.

Definition read : prog St := Do Read (fun s => Ret s).
Definition modify (f : St -> St) : prog unit := Do (Modify f) (fun u => Ret u).
Definition console_error (label : string) (d : log_detail) : prog unit :=
  Do (ConsoleError label d) (fun u => Ret u).
Definition preventDefault : prog unit := Do PreventDefault (fun u => Ret u).
Definition form_reset : prog unit := Do FormReset (fun u => Ret u).
Definition setTimeout (cb : timer_callback) (ms : Z) : prog unit :=
  Do (SetTimeout cb ms) (fun u => Ret u).

(** [await c]: the value the promise resolves to, or its rejection
    thrown at the [await]. *)
Definition await {X : Type} (c : call X) : prog X :=
  Await c (fun r => match r with inl e => Throw e | inr x => Ret x end).

(** An expression that may throw. *)
Definition eval {A : Type} (r : error + A) : prog A :=
  match r with inl e => Throw e | inr a => Ret a end.

(** [await f()] for an [async] function [f] of the component.  [f] runs,
    and its own [await]s suspend the caller with it; when [f] is over its
    promise settles, and the caller, suspended at this [await] until then,
    resumes with what [f] returned or threw.  So the caller is suspended
    here at least once, also when [f] ends without awaiting anything.
    [COwnPromise] is that promise: it needs no answer from outside. *)
Definition await_call {A : Type} (f : prog A) : prog A :=
  bind (try_catch (bind f (fun a => Ret (inr a))) (fun e => Ret (inl e)))
       (fun outcome => Await COwnPromise (fun _ => eval outcome)).

(* ---------------------------------------------------------------- *)
(** ** The page *)

Record world : Type := mkWorld {
  st : St;
  dom : form;
  clock : nat;
  trace : list obs
}.

Definition observe (o : obs) (w : world) : world :=
  mkWorld (st w) (dom w) (clock w) (trace w ++ [o])%list.

Definition perform {X : Type} (op : effect X) (w : world) : X * world :=
  match op in effect X return X * world with
  | Read => (st w, w)
  | Modify f => (tt, mkWorld (f (st w)) (dom w) (clock w) (trace w))
  | ConsoleError l d => (tt, observe (OConsoleError l d) w)
  | PreventDefault => (tt, observe OPreventDefault w)
  | FormReset =>
      (tt, mkWorld (st w) blank_form (clock w) (trace w ++ [OFormReset])%list)
  | SetTimeout cb ms => (tt, observe (OSetTimeout cb ms) w)
  end.

(** Calling the promise-returning function: the request leaves. *)
Definition emit {X : Type} (c : call X) (w : world) : world :=
  match c with
  | CFetch rq => observe (ORequest rq) w
  | CJson _ => observe OJsonStart w
  | CLoad k => observe (OLoadStart k) w
  | CExecute _ a => observe (OExecuteStart a) w
  | COwnPromise => w
  end.

(** How the environment settles the promise. *)
Definition settle (E : env) {X : Type} (c : call X) (w : world) : error + X :=
  match c in call X return error + X with
  | CFetch rq => net E (clock w) rq
  | CJson r => json r
  | CLoad k => recaptcha_load E (clock w) k
  | CExecute i a => recaptcha_execute E (clock w) i a
  | COwnPromise => inr tt
  end.

(** The settlement reaches the page. *)
Definition deliver {X : Type} (c : call X) : error + X -> world -> world :=
  match c in call X return error + X -> world -> world with
  | CFetch rq => fun r w =>
      mkWorld (st w) (dom w) (S (clock w)) (trace w ++ [OResponse rq r])%list
  | CJson _ => fun r w =>
      mkWorld (st w) (dom w) (S (clock w)) (trace w ++ [OJsonDone r])%list
  | CLoad _ => fun r w =>
      mkWorld (st w) (dom w) (S (clock w)) (trace w ++ [OLoadDone r])%list
  | CExecute _ _ => fun r w =>
      mkWorld (st w) (dom w) (S (clock w)) (trace w ++ [OExecuteDone r])%list
  | COwnPromise => fun _ w => w
  end.

(** A call run to completion with nothing else scheduled in between. *)
Fixpoint run (E : env) {A : Type} (p : prog A) (w : world)
  : (error + A) * world :=
  match p with
  | Ret a => (inr a, w)
  | Throw e => (inl e, w)
  | Do op k => let (x, w1) := perform op w in run E (k x) w1
  | Await c k =>
      let w1 := emit c w in
      let r := settle E c w1 in
      run E (k r) (deliver c r w1)
  end.

(** The pages seen while the call is suspended at one of its [await]s:
    the promise has been created and has not settled yet. *)
Fixpoint suspensions (E : env) {A : Type} (p : prog A) (w : world)
  : list world :=
  match p with
  | Ret _ | Throw _ => []
  | Do op k => let (x, w1) := perform op w in suspensions E (k x) w1
  | Await c k =>
      let w1 := emit c w in
      let r := settle E c w1 in
      w1 :: suspensions E (k r) (deliver c r w1)
  end.

(** What one call added to the page's trace. *)
Definition log (E : env) {A : Type} (p : prog A) (w : world) : list obs :=
  skipn (List.length (trace w)) (trace (snd (run E p w))).

(** A call started and run up to its first [await]. *)
Inductive task (A : Type) : Type :=
| Finished (r : error + A)
| Suspended {X : Type} (c : call X) (k : error + X -> prog A).

Fixpoint start {A : Type} (p : prog A) (w : world) : task A * world :=
  match p with
  | Ret a => (Finished (inr a), w)
  | Throw e => (Finished (inl e), w)
  | Do op k => let (x, w1) := perform op w in start (k x) w1
  | Await c k => (Suspended c k, emit c w)
  end.

End Programs.

Arguments prog St A : clear implicits.
Arguments world St : clear implicits.
Arguments Ret {St A} a.
Arguments Throw {St A} e.

Declare Scope prog_scope.
Delimit Scope prog_scope with prog.
Notation "x <- p ;; q" := (bind p (fun x => q))
  (at level 61, p at next level, right associativity) : prog_scope.
Notation "p ;; q" := (bind p (fun _ => q))
  (at level 61, right associativity) : prog_scope.
Open Scope prog_scope.

(** [obj.k = v] on an object that has no property [k] yet. *)
Definition set_prop (o : value) (k : string) (v : value) : value :=
  match o with
  | VObj fields => VObj (fields ++ [(k, v)])%list
  | other => other
  end.

(** [a || d] where [a] is an attribute read with [getAttribute]. *)
Definition attr_truthy (a : option string) : bool :=
  match a with
  | Some s => negb (s =? "")
  | None => false
  end.

Definition attr_or (a : option string) (d : string) : string :=
  match a with
  | Some s => if s =? "" then d else s
  | None => d
  end.

(** How the outcome of a block that may [return] early is passed on. *)
Inductive completion (A : Type) : Type :=
| Normal (a : A)
| Return.
Arguments Return {A}.

(** The observations that are requests of one HTTP method. *)
Definition requests_of (m : http_method) (t : list obs) : list request :=
  flat_map (fun o =>
    match o with
    | ORequest rq =>
        match method rq, m with
        | GET, GET | POST, POST => [rq]
        | _, _ => []
        end
    | _ => []
    end) t.

Definition form_resets (t : list obs) : nat :=
  List.length (filter (fun o => match o with OFormReset => true | _ => false end) t).

(* ================================================================== *)
(** * The component with reCAPTCHA, ordering and reply tracking *)
(* ================================================================== *)

Module Recaptcha.

(** [defineProps]: what the embedding page passes, [order] being optional.
    [post_id] is declared [[String, Number]]; the component uses it only
    as text (in template literals and as the value of a hidden input), so
    it is kept as that text: a string as it is, a number as [String(n)]. *)
Record attrs : Type := mkAttrs {
  attr_post_id : string;
  attr_endpoint : string;
  attr_api_key : string;
  attr_order : option string
}.

Record props : Type := mkProps {
  post_id : string;
  endpoint : string;
  api_key : string;
  order : string
}.

(** The [order] prop has [default: 'DESC']. *)
Definition defineProps (a : attrs) : props :=
  mkProps (attr_post_id a) (attr_endpoint a) (attr_api_key a)
    (match attr_order a with Some o => o | None => "DESC" end).

(** The value of [replyingTo] when a reply is being written. *)
Record reply : Type := mkReply {
  id : string;
  replyTo : string
}.

(** The [ref]s of the component. *)
Record refs : Type := mkRefs {
  commentsData : value;
  loading : bool;
  submitting : bool;
  message : value;
  replyingTo : option reply;
  recaptchaConfig : value;
  recaptchaInstance : option recaptcha
}.

Definition initial_refs : refs :=
  mkRefs VNull true false (VStr "") None
    (VObj [("enabled", VBool false); ("site_key", VStr "")]) None.

Definition set_commentsData (v : value) (s : refs) : refs :=
  mkRefs v (loading s) (submitting s) (message s) (replyingTo s)
    (recaptchaConfig s) (recaptchaInstance s).
Definition set_loading (b : bool) (s : refs) : refs :=
  mkRefs (commentsData s) b (submitting s) (message s) (replyingTo s)
    (recaptchaConfig s) (recaptchaInstance s).
Definition set_submitting (b : bool) (s : refs) : refs :=
  mkRefs (commentsData s) (loading s) b (message s) (replyingTo s)
    (recaptchaConfig s) (recaptchaInstance s).
Definition set_message (v : value) (s : refs) : refs :=
  mkRefs (commentsData s) (loading s) (submitting s) v (replyingTo s)
    (recaptchaConfig s) (recaptchaInstance s).
Definition set_replyingTo (r : option reply) (s : refs) : refs :=
  mkRefs (commentsData s) (loading s) (submitting s) (message s) r
    (recaptchaConfig s) (recaptchaInstance s).
Definition set_recaptchaConfig (v : value) (s : refs) : refs :=
  mkRefs (commentsData s) (loading s) (submitting s) (message s) (replyingTo s)
    v (recaptchaInstance s).
Definition set_recaptchaInstance (i : option recaptcha) (s : refs) : refs :=
  mkRefs (commentsData s) (loading s) (submitting s) (message s) (replyingTo s)
    (recaptchaConfig s) i.

Definition recaptcha_failure_text : string :=
  "Failed to verify reCAPTCHA. Please try again.".
Definition submit_success_text : string := "Comment submitted successfully!".
Definition submit_error_text : string :=
  "Error submitting comment. Please try again.".

Section Component.

Context {engine : Runtime}.
Variable p : props.

(** [validator: (value) => ['ASC', 'DESC'].includes(value.toUpperCase())].
    Vue runs it in development builds and only warns when it fails. *)
Definition validator (v : string) : bool :=
  includes ["ASC"; "DESC"] (toUpperCase v).

Definition api_headers : list (string * string) := [("X-API-Key", api_key p)].

Definition config_request : request :=
  mkRequest (endpoint p ++ "/wp-json/headless-comments/v1/recaptcha/config")
    GET api_headers None.

(** [props.order ? props.order.toUpperCase() : 'DESC']. *)
Definition orderParam : string :=
  if negb (order p =? "") then toUpperCase (order p) else "DESC".

Definition list_request : request :=
  mkRequest
    (endpoint p ++ "/wp-json/headless-comments/v1/posts/"
       ++ post_id p ++ "/comments?order=" ++ orderParam)
    GET api_headers None.

Definition create_request (commentData : value) : request :=
  mkRequest
    (endpoint p ++ "/wp-json/headless-comments/v1/posts/"
       ++ post_id p ++ "/comments")
    POST
    [("Content-Type", "application/json"); ("X-API-Key", api_key p)]
    (Some commentData).

(** The object literal [commentData] of [submitComment]. *)
Definition commentData_of (formData : formdata) : value :=
  VObj [("author_name", formdata_get formData "author_name");
        ("author_email", formdata_get formData "author_email");
        ("content", formdata_get formData "content");
        ("parent", js_or (formdata_get formData "comment_parent") (VNum 0))].

Definition fetchRecaptchaConfig : prog refs unit :=
  try_catch
    (response <- await (CFetch config_request) ;;
     if ok response then
       config <- await (CJson response) ;;
       modify (set_recaptchaConfig config) ;;
       enabled <- eval (get_prop config "enabled") ;;
       if truthy enabled then
         site_key <- eval (get_prop config "site_key") ;;
         if truthy site_key then
           try_catch
             (instance <- await (CLoad site_key) ;;
              modify (set_recaptchaInstance (Some instance)))
             (fun e => console_error "Error loading reCAPTCHA:" (LError e))
         else Ret tt
       else Ret tt
     else Ret tt)
    (fun e => console_error "Error fetching reCAPTCHA config:" (LError e)).

Definition getRecaptchaToken : prog refs value :=
  s <- read ;;
  enabled <- eval (get_prop (recaptchaConfig s) "enabled") ;;
  match negb (truthy enabled), recaptchaInstance s with
  | true, _ | false, None => Ret VNull
  | false, Some instance =>
      try_catch
        (token <- await (CExecute instance "submit_comment") ;;
         Ret token)
        (fun e =>
           console_error "Error getting reCAPTCHA token:" (LError e) ;;
           Ret VNull)
  end.

Definition fetchComments : prog refs unit :=
  modify (set_loading true) ;;
  try_finally
    (try_catch
       (response <- await (CFetch list_request) ;;
        if ok response then
          data <- await (CJson response) ;;
          modify (set_commentsData data)
        else
          console_error "Failed to fetch comments:"
            (LStatus (status response) (statusText response)))
       (fun e => console_error "Error fetching comments:" (LError e)))
    (modify (set_loading false)).

Definition submitComment (event : submit_event) : prog refs unit :=
  preventDefault ;;
  modify (set_submitting true) ;;
  modify (set_message (VStr "")) ;;
  let commentData := commentData_of (target event) in
  try_finally
    (try_catch
       (s <- read ;;
        enabled <- eval (get_prop (recaptchaConfig s) "enabled") ;;
        gate <-
          (if truthy enabled then
             token <- await_call getRecaptchaToken ;;
             if truthy token then
               Ret (Normal (set_prop commentData "recaptcha_token" token))
             else
               modify (set_message (VStr recaptcha_failure_text)) ;;
               modify (set_submitting false) ;;
               Ret Return
           else Ret (Normal commentData)) ;;
        match gate with
        | Return => Ret tt
        | Normal commentData =>
            response <- await (CFetch (create_request commentData)) ;;
            if ok response then
              result <- await (CJson response) ;;
              result_message <- eval (get_prop result "message") ;;
              modify (set_message
                        (js_or result_message (VStr submit_success_text))) ;;
              form_reset ;;
              modify (set_replyingTo None) ;;
              approved <- eval (get_prop result "approved") ;;
              if truthy approved then await_call fetchComments else Ret tt
            else
              error <- await (CJson response) ;;
              error_message <- eval (get_prop error "message") ;;
              modify (set_message
                        (js_or error_message (VStr submit_error_text)))
        end)
       (fun e =>
          modify (set_message (VStr submit_error_text)) ;;
          console_error "Submit error:" (LError e)))
    (modify (set_submitting false)).

Definition handleReplyClick (event : click_event) : prog refs unit :=
  preventDefault ;;
  let commentId := data_commentid event in
  let replyToText := data_replyto event in
  match commentId with
  | Some cid =>
      if attr_truthy commentId then
        modify (set_replyingTo
                  (Some (mkReply cid (attr_or replyToText ("Comment #" ++ cid))))) ;;
        setTimeout (ScrollToForm "respond" "#comment") 100
      else Ret tt
  | None => Ret tt
  end.

Definition cancelReply : prog refs unit :=
  modify (set_replyingTo None).

Definition onMounted : prog refs unit :=
  await_call fetchRecaptchaConfig ;;
  await_call fetchComments.

(** ** The template's bindings *)

(** [commentsData.value?.count || 0] and [commentsData.value?.rendered || '']. *)
Definition commentCount (s : refs) : value :=
  js_or (get_prop_opt (commentsData s) "count") (VNum 0).
Definition renderedComments (s : refs) : value :=
  js_or (get_prop_opt (commentsData s) "rendered") (VStr "").

(** [<input type="hidden" name="comment_parent" :value="replyingTo?.id || 0">]:
    the text the input holds, the number 0 being rendered as its decimal. *)
Definition comment_parent_input (s : refs) : string :=
  match replyingTo s with
  | Some r => if id r =? "" then "0" else id r
  | None => "0"
  end.

(** [<button type="submit" :disabled="submitting">]. *)
Definition submit_disabled (s : refs) : bool := submitting s.

(** The entries of [<form id="commentform">], in document order. *)
Definition form_entries (s : refs) (f : form) : formdata :=
  [("comment_post_ID", post_id p);
   ("comment_parent", comment_parent_input s);
   ("author_name", author_name f);
   ("author_email", author_email f);
   ("content", content f)].

(** The submit event the form dispatches for the page as it stands. *)
Definition submit_event_of (w : world refs) : submit_event :=
  mkSubmit (form_entries (st w) (dom w)).

(** The visitor activates the submit button (a click, or Enter in a field,
    which the browser turns into a click on that button).  A disabled
    button dispatches nothing.  For an enabled one the browser first
    validates the form, and a form that fails is not submitted.  Otherwise
    [@submit] calls [submitComment], which runs up to its first [await]. *)
Definition press_submit (email_ok : bool) (w : world refs)
  : task (St:=refs) unit * world refs :=
  if submit_disabled (st w) then (Finished (inr tt), w)
  else if form_valid email_ok (dom w)
       then start (submitComment (submit_event_of w)) w
       else (Finished (inr tt), w).

End Component.

End Recaptcha.

(* ================================================================== *)
(** * src/components/VueComments.vue *)
(* ================================================================== *)

Module Basic.

(** [defineProps(['post_id', 'endpoint', 'api_key'])]; [post_id] is kept
    as the text the template literals make of it. *)
Record props : Type := mkProps {
  post_id : string;
  endpoint : string;
  api_key : string
}.

Record refs : Type := mkRefs {
  comments : value;
  loading : bool;
  submitting : bool;
  message : value
}.

Definition initial_refs : refs := mkRefs (VArr []) true false (VStr "").

Definition set_comments (v : value) (s : refs) : refs :=
  mkRefs v (loading s) (submitting s) (message s).
Definition set_loading (b : bool) (s : refs) : refs :=
  mkRefs (comments s) b (submitting s) (message s).
Definition set_submitting (b : bool) (s : refs) : refs :=
  mkRefs (comments s) (loading s) b (message s).
Definition set_message (v : value) (s : refs) : refs :=
  mkRefs (comments s) (loading s) (submitting s) v.

Definition submit_success_text : string := "Comment submitted successfully!".
Definition submit_error_text : string :=
  "Error submitting comment. Please try again.".

Section Component.

Variable p : props.

Definition comments_url : string :=
  endpoint p ++ "/wp-json/headless-comments/v1/posts/"
    ++ post_id p ++ "/comments".

Definition list_request : request :=
  mkRequest comments_url GET [("X-API-Key", api_key p)] None.

Definition create_request (commentData : value) : request :=
  mkRequest comments_url POST
    [("Content-Type", "application/json"); ("X-API-Key", api_key p)]
    (Some commentData).

Definition commentData_of (formData : formdata) : value :=
  VObj [("author_name", formdata_get formData "author_name");
        ("author_email", formdata_get formData "author_email");
        ("content", formdata_get formData "content");
        ("parent", js_or (formdata_get formData "parent") (VNum 0))].

Definition fetchComments : prog refs unit :=
  try_finally
    (try_catch
       (response <- await (CFetch list_request) ;;
        if ok response then
          data <- await (CJson response) ;;
          modify (set_comments data)
        else
          console_error "Failed to fetch comments:"
            (LStatus (status response) (statusText response)))
       (fun e => console_error "Error fetching comments:" (LError e)))
    (modify (set_loading false)).

Definition submitComment (event : submit_event) : prog refs unit :=
  preventDefault ;;
  modify (set_submitting true) ;;
  modify (set_message (VStr "")) ;;
  let commentData := commentData_of (target event) in
  try_finally
    (try_catch
       (response <- await (CFetch (create_request commentData)) ;;
        if ok response then
          result <- await (CJson response) ;;
          result_message <- eval (get_prop result "message") ;;
          modify (set_message
                    (js_or result_message (VStr submit_success_text))) ;;
          form_reset ;;
          approved <- eval (get_prop result "approved") ;;
          if truthy approved then await_call fetchComments else Ret tt
        else
          error <- await (CJson response) ;;
          error_message <- eval (get_prop error "message") ;;
          modify (set_message
                    (js_or error_message (VStr submit_error_text))))
       (fun e =>
          modify (set_message (VStr submit_error_text)) ;;
          console_error "Submit error:" (LError e)))
    (modify (set_submitting false)).

Definition onMounted : prog refs unit := fetchComments.

(** The entries of the form: the three controls, then
    [<input type="hidden" name="parent" value="0">]. *)
Definition form_entries (f : form) : formdata :=
  [("author_name", author_name f);
   ("author_email", author_email f);
   ("content", content f);
   ("parent", "0")].

End Component.

End Basic.

(* ================================================================== *)
(** * Vocabulary of the statements *)
(* ================================================================== *)

(** A [fetch] that did not bring a success response: the promise was
    rejected, or [response.ok] is false. *)
Definition fetch_failed (r : error + response) : bool :=
  match r with
  | inl _ => true
  | inr resp => negb (ok resp)
  end.

(** The [parent] of the payload a request carries. *)
Definition payload_parent (rq : request) : option value :=
  match body rq with
  | Some commentData =>
      match get_prop commentData "parent" with
      | inr v => Some v
      | inl _ => None
      end
  | None => None
  end.

(** The embedding page passes no [order]. *)
Definition attr_order_absent (a : Recaptcha.attrs) : bool :=
  match Recaptcha.attr_order a with
  | None => true
  | Some _ => false
  end.

(** The reply link of comment 42. *)
Definition reply_to_jane : click_event :=
  mkClick (Some "42") (Some "Reply to Jane").

Definition is_request (o : obs) : bool :=
  match o with
  | ORequest _ => true
  | _ => false
  end.

(** A stretch of log in which no request leaves. *)
Definition quiet (t : list obs) : bool :=
  forallb (fun o => negb (is_request o)) t.

(** One property of the payload a request carries. *)
Definition payload_field (rq : request) (k : string) : option value :=
  match body rq with
  | Some commentData =>
      match get_prop commentData k with
      | inr v => Some v
      | inl _ => None
      end
  | None => None
  end.

Definition is_execute (o : obs) : bool :=
  match o with
  | OExecuteStart _ => true
  | _ => false
  end.

(** The log up to the first request of a method, and that request. *)
Fixpoint until_request (m : http_method) (t : list obs)
  : option (list obs * request) :=
  match t with
  | [] => None
  | o :: rest =>
      match o with
      | ORequest rq =>
          match method rq, m with
          | GET, GET | POST, POST => Some ([], rq)
          | _, _ =>
              match until_request m rest with
              | Some (before, found) => Some (o :: before, found)
              | None => None
              end
          end
      | _ =>
          match until_request m rest with
          | Some (before, found) => Some (o :: before, found)
          | None => None
          end
      end
  end.


(** ** The template of the reCAPTCHA component *)

(** The block under the heading: [v-if="loading"], then
    [v-else-if="renderedComments"] with [v-html="renderedComments"], then
    [v-else] with 'No comments yet. Be the first to comment!'. *)
Inductive panel : Type :=
| LoadingNotice
| CommentsList (html : value)
| NoComments.

Definition comments_panel (s : Recaptcha.refs) : panel :=
  if Recaptcha.loading s then LoadingNotice
  else if truthy (Recaptcha.renderedComments s)
       then CommentsList (Recaptcha.renderedComments s)
       else NoComments.

(** [#reply-title]: [{{ replyingTo.replyTo }}] under [v-if="replyingTo"],
    'Leave a Comment' under [v-else]. *)
Definition reply_title (s : Recaptcha.refs) : string :=
  match Recaptcha.replyingTo s with
  | Some r => Recaptcha.replyTo r
  | None => "Leave a Comment"
  end.

(** ** Click listeners of the reply links *)

(** A listener registered for [click] on a link: [handleReplyClick], or
    some other function of the page. *)
Inductive listener : Type :=
| HandleReplyClick
| OtherListener (n : nat).

Definition same_listener (a b : listener) : bool :=
  match a, b with
  | HandleReplyClick, HandleReplyClick => true
  | OtherListener n, OtherListener m => Nat.eqb n m
  | _, _ => false
  end.

(** [link.removeEventListener('click', h)]: the registration of [h], if
    there is one, goes. *)
Fixpoint removeEventListener (link : list listener) (h : listener)
  : list listener :=
  match link with
  | [] => []
  | l :: rest =>
      if same_listener l h then rest
      else l :: removeEventListener rest h
  end.

(** [link.addEventListener('click', h)]: [h] is appended unless it is
    registered already. *)
Definition addEventListener (link : list listener) (h : listener)
  : list listener :=
  if existsb (fun l => same_listener l h) link then link
  else (link ++ [h])%list.

(** The callback [attachReplyListeners] hands to [nextTick], on the list
    of the elements [querySelectorAll('.comment-reply-link')] finds. *)
Definition attachReplyListeners (replyLinks : list (list listener))
  : list (list listener) :=
  map (fun link =>
         addEventListener (removeEventListener link HandleReplyClick)
           HandleReplyClick)
      replyLinks.

(** How many times [handleReplyClick] is registered on a link, and the
    other listeners of the link. *)
Definition handlers_on (link : list listener) : nat :=
  List.length (filter (fun l => same_listener l HandleReplyClick) link).

Definition others_on (link : list listener) : list listener :=
  filter (fun l => negb (same_listener l HandleReplyClick)) link.

(** ** Sample pages *)

Definition sample_props : Recaptcha.props :=
  Recaptcha.defineProps
    (Recaptcha.mkAttrs "7" "https://blog.example" "k3y" None).

Definition sample_basic_props : Basic.props :=
  Basic.mkProps "7" "https://blog.example" "k3y".

Definition sample_form : form := mkForm "Jane" "jane@example.org" "Nice post".

(** The page right after setup, the form filled in. *)
Definition fresh_page : world Recaptcha.refs :=
  mkWorld Recaptcha.initial_refs sample_form 0 [].

Definition fresh_basic_page : world Basic.refs :=
  mkWorld Basic.initial_refs sample_form 0 [].

(** The same page once the server has switched reCAPTCHA on but the
    library could not be loaded. *)
Definition guarded_page : world Recaptcha.refs :=
  mkWorld
    (Recaptcha.set_recaptchaConfig
       (VObj [("enabled", VBool true); ("site_key", VStr "site")])
       Recaptcha.initial_refs)
    sample_form 0 [].

(** A server that answers every request with the same response. *)
Definition always (r : response) : env :=
  mkEnv (fun _ _ => inr r)
        (fun _ k => inr (ReCaptchaInstance k))
        (fun _ _ _ => inr (VStr "token")).

(** No network at all. *)
Definition offline : env :=
  mkEnv (fun _ _ => inl NetworkError)
        (fun _ _ => inl NetworkError)
        (fun _ _ _ => inl NetworkError).

Definition held_for_moderation : response :=
  mkResponse true 200 "OK"
    (inr (VObj [("message", VStr "Your comment is awaiting moderation.");
                ("approved", VBool false)])).

Definition published : response :=
  mkResponse true 200 "OK"
    (inr (VObj [("message", VStr "Thanks!"); ("approved", VBool true)])).


Definition duplicate : response :=
  mkResponse false 409 "Conflict"
    (inr (VObj [("message", VStr "Duplicate comment detected")])).

Definition rejected_silently : response :=
  mkResponse false 400 "Bad Request" (inr (VObj [("message", VStr "")])).


Definition gateway_error : response :=
  mkResponse false 502 "Bad Gateway" (inl SyntaxError).

(* ================================================================== *)
(** * How [run] goes through the combinators *)
(* ================================================================== *)

Section RunFacts.

Context {St : Type}.
Variable E : env.

Lemma run_bind {A B : Type} (p : prog St A) (f : A -> prog St B) (w : world St) :
  run E (bind p f) w =
  match run E p w with
  | (inr a, w1) => run E (f a) w1
  | (inl e, w1) => (inl e, w1)
  end.
Proof.
  revert w; induction p as [a | e | X op k IH | X c k IH]; intro w; simpl.
  - reflexivity.
  - reflexivity.
  - destruct (perform op w) as [x w1]. apply IH.
  - apply IH.
Qed.

Lemma run_try_catch {A : Type} (p : prog St A) (h : error -> prog St A)
      (w : world St) :
  run E (try_catch p h) w =
  match run E p w with
  | (inr a, w1) => (inr a, w1)
  | (inl e, w1) => run E (h e) w1
  end.
Proof.
  revert w; induction p as [a | e | X op k IH | X c k IH]; intro w; simpl.
  - reflexivity.
  - reflexivity.
  - destruct (perform op w) as [x w1]. apply IH.
  - apply IH.
Qed.

Lemma run_try_finally {A : Type} (p : prog St A) (fin : prog St unit)
      (w : world St) :
  run E (try_finally p fin) w =
  let (r, w1) := run E p w in
  match run E fin w1 with
  | (inr _, w2) => (r, w2)
  | (inl e, w2) => (inl e, w2)
  end.
Proof.
  revert w; induction p as [a | e | X op k IH | X c k IH]; intro w; simpl.
  - rewrite run_bind. destruct (run E fin w) as [[e' | u] w2]; reflexivity.
  - rewrite run_bind. destruct (run E fin w) as [[e' | u] w2]; reflexivity.
  - destruct (perform op w) as [x w1]. apply IH.
  - apply IH.
Qed.

(** Whatever a call does, the page's trace only grows. *)
Lemma run_trace {A : Type} (p : prog St A) (w : world St) :
  trace (snd (run E p w)) = (trace w ++ log E p w)%list.
Proof.
  unfold log.
  assert (G : exists d, trace (snd (run E p w)) = (trace w ++ d)%list).
  { revert w; induction p as [a | e | X op k IH | X c k IH]; intro w; simpl.
    - exists []. now rewrite app_nil_r.
    - exists []. now rewrite app_nil_r.
    - destruct (perform op w) as [x w1] eqn:P.
      destruct (IH x w1) as [d Hd]. rewrite Hd.
      destruct op; simpl in P; inversion P; subst; simpl;
        try (eexists; reflexivity);
        rewrite <- app_assoc; eexists; reflexivity.
    - destruct (IH (settle E c (emit c w)) (deliver c (settle E c (emit c w)) (emit c w)))
        as [d Hd].
      rewrite Hd.
      destruct c; simpl; repeat rewrite <- app_assoc; eexists; reflexivity. }
  destruct G as [d Hd]. rewrite Hd.
  rewrite skipn_app, skipn_all, Nat.sub_diag. reflexivity.
Qed.

Lemma log_of_trace {A : Type} (p : prog St A) (w : world St) (d : list obs) :
  trace (snd (run E p w)) = (trace w ++ d)%list -> log E p w = d.
Proof.
  intro H. unfold log. rewrite H.
  rewrite skipn_app, skipn_all, Nat.sub_diag. reflexivity.
Qed.

(** Awaiting an [async] function of the component gives what running it
    gives: the extra suspension changes neither page nor log. *)
Lemma run_await_call {A : Type} (f : prog St A) (w : world St) :
  run E (await_call f) w = run E f w.
Proof.
  unfold await_call. rewrite run_bind, run_try_catch, run_bind.
  destruct (run E f w) as [[e | a] w1]; reflexivity.
Qed.

Lemma log_await_call {A : Type} (f : prog St A) (w : world St) :
  log E (await_call f) w = log E f w.
Proof. unfold log. rewrite run_await_call. reflexivity. Qed.

End RunFacts.

Lemma skipn_length_app {A : Type} (l d : list A) :
  skipn (List.length l) (l ++ d)%list = d.
Proof.
  rewrite skipn_app, skipn_all, Nat.sub_diag. reflexivity.
Qed.

Lemma skipn_length_self {A : Type} (l : list A) :
  skipn (List.length l) l = [].
Proof. apply skipn_all. Qed.

(* ================================================================== *)
(** * Symbolic execution of a call *)
(* ================================================================== *)

(** The scrutinee on which the head of a program is waiting. *)
Ltac head_stuck p :=
  lazymatch p with
  | bind ?q _ => head_stuck q
  | try_catch ?q _ => head_stuck q
  | try_finally ?q _ => head_stuck q
  | eval ?x => x
  | match ?x with _ => _ end => x
  end.

Ltac exec_cbn R :=
  cbn -[truthy js_or get_prop lookup set_prop String.append
        Recaptcha.list_request Recaptcha.create_request
        Recaptcha.config_request Recaptcha.commentData_of
        Basic.list_request Basic.create_request Basic.commentData_of] in R.

(** Answers of the environment and tests of the code already decided. *)
Ltac exec_known R :=
  repeat match goal with
  | H : _ = _ |- _ =>
      tryif constr_eq H R then fail else rewrite H in R
  end.

(** Case analysis on one answer of the environment or one test of the
    code. *)
Ltac exec_case R x :=
  let H := fresh "Hx" in
  destruct x eqn:H;
  try solve [cbn in H; discriminate H].

Ltac exec_in R :=
  exec_cbn R;
  repeat (
    exec_known R; exec_cbn R;
    lazymatch type of R with
    | run _ ?p _ = _ => let x := head_stuck p in exec_case R x
    | context [suspensions _ ?p _] =>
        let x := head_stuck p in exec_case R x
    end; exec_cbn R).

Ltac unfold_calls R :=
  unfold Recaptcha.submitComment, Recaptcha.onMounted,
    Recaptcha.fetchRecaptchaConfig, Recaptcha.getRecaptchaToken,
    Recaptcha.fetchComments, Recaptcha.handleReplyClick,
    Recaptcha.cancelReply,
    Basic.submitComment, Basic.onMounted, Basic.fetchComments,
    await_call in R.

(** All the ways a call can go, each with its final page and its log. *)
Ltac run_cases :=
  unfold log;
  lazymatch goal with
  | |- context [run ?E ?p ?w] =>
      let R := fresh "R" in
      let res := fresh "res" in
      let w' := fresh "w'" in
      destruct (run E p w) as [res w'] eqn:R;
      unfold_calls R; exec_in R;
      inversion R; subst res w'; clear R
  end;
  cbn [fst snd trace st dom clock observe];
  repeat rewrite <- app_assoc;
  rewrite ?skipn_length_app, ?skipn_length_self;
  cbn [app].

(** Which observation of an explicit log a hypothesis speaks about. *)
Ltac pick_obs :=
  repeat match goal with
  | H : In _ (_ :: _) |- _ => cbn [In] in H
  | H : In _ [] |- _ => destruct H
  | H : _ \/ _ |- _ => destruct H
  | H : False |- _ => destruct H
  | H : @eq obs _ _ |- _ => first [discriminate H | injection H as ?; subst]
  end.

(** Examples are evaluated with the engine that upper-cases ASCII
    letters. *)
#[local] Existing Instance ascii_engine.

(* ================================================================== *)
(** * Loading the comments *)
(* ================================================================== *)

(** C9. Every call of [fetchComments] completes with [loading] false, and
    every call of [submitComment] completes with [submitting] false, on
    every way out (success, non-success response, rejection, a body that
    does not parse, the token gate); neither call ever throws.  Both
    components. *)
Theorem flags_restored_on_every_exit `{engine : Runtime} :
  (forall p E (w : world Recaptcha.refs),
     fst (run E (Recaptcha.fetchComments p) w) = inr tt /\
     Recaptcha.loading (st (snd (run E (Recaptcha.fetchComments p) w)))
       = false)
  /\
  (forall p E ev (w : world Recaptcha.refs),
     fst (run E (Recaptcha.submitComment p ev) w) = inr tt /\
     Recaptcha.submitting (st (snd (run E (Recaptcha.submitComment p ev) w)))
       = false)
  /\
  (forall p E (w : world Basic.refs),
     fst (run E (Basic.fetchComments p) w) = inr tt /\
     Basic.loading (st (snd (run E (Basic.fetchComments p) w))) = false)
  /\
  (forall p E ev (w : world Basic.refs),
     fst (run E (Basic.submitComment p ev) w) = inr tt /\
     Basic.submitting (st (snd (run E (Basic.submitComment p ev) w)))
       = false).
Proof.
  repeat split; run_cases; reflexivity.
Qed.

(** C5. A call of [fetchComments] whose [fetch] is rejected or answered
    with a non-success response leaves [commentsData] (in
    VueComments.vue: [comments]) as it was: of the refs only [loading]
    changes, the form is untouched, and the log gains the request, its
    settlement and one [console.error]. *)
Theorem failed_fetch_keeps_comments `{engine : Runtime} :
  (forall p E (w : world Recaptcha.refs),
     fetch_failed (net E (clock w) (Recaptcha.list_request p)) = true ->
     Recaptcha.commentsData (st (snd (run E (Recaptcha.fetchComments p) w)))
       = Recaptcha.commentsData (st w) /\
     st (snd (run E (Recaptcha.fetchComments p) w))
       = Recaptcha.set_loading false (st w) /\
     dom (snd (run E (Recaptcha.fetchComments p) w)) = dom w /\
     exists label detail,
       log E (Recaptcha.fetchComments p) w =
       [ORequest (Recaptcha.list_request p);
        OResponse (Recaptcha.list_request p)
          (net E (clock w) (Recaptcha.list_request p));
        OConsoleError label detail])
  /\
  (forall p E (w : world Basic.refs),
     fetch_failed (net E (clock w) (Basic.list_request p)) = true ->
     Basic.comments (st (snd (run E (Basic.fetchComments p) w)))
       = Basic.comments (st w) /\
     st (snd (run E (Basic.fetchComments p) w))
       = Basic.set_loading false (st w) /\
     dom (snd (run E (Basic.fetchComments p) w)) = dom w /\
     exists label detail,
       log E (Basic.fetchComments p) w =
       [ORequest (Basic.list_request p);
        OResponse (Basic.list_request p)
          (net E (clock w) (Basic.list_request p));
        OConsoleError label detail]).
Proof.
  split; intros p E w.
  - run_cases; intro F; cbn [fetch_failed] in F;
      try match goal with
          | H : ok _ = true |- _ => rewrite H in F; discriminate F
          end;
      repeat split; try reflexivity; do 2 eexists; reflexivity.
  - run_cases; intro F; cbn [fetch_failed] in F;
      try match goal with
          | H : ok _ = true |- _ => rewrite H in F; discriminate F
          end;
      repeat split; try reflexivity; do 2 eexists; reflexivity.
Qed.

Lemma failed_fetch_keeps_comments_witness :
  fetch_failed (net offline (clock fresh_page)
                  (Recaptcha.list_request sample_props)) = true /\
  Recaptcha.commentsData
    (st (snd (run offline (Recaptcha.fetchComments sample_props) fresh_page)))
  = VNull /\
  fetch_failed (net (always gateway_error) (clock fresh_basic_page)
                  (Basic.list_request sample_basic_props)) = true /\
  Basic.comments
    (st (snd (run (always gateway_error)
                (Basic.fetchComments sample_basic_props) fresh_basic_page)))
  = VArr [].
Proof.
  split; [reflexivity | split; [| split; [reflexivity |]]].
  - exact (proj1 (proj1 failed_fetch_keeps_comments
                    sample_props offline fresh_page eq_refl)).
  - exact (proj1 (proj2 failed_fetch_keeps_comments
                    sample_basic_props (always gateway_error)
                    fresh_basic_page eq_refl)).
Defined.

(* ================================================================== *)
(** * Submitting a comment *)
(* ================================================================== *)

(** Two answers to the same question are the same answer. *)
Ltac same_answers :=
  repeat match goal with
  | H : ?x = _, H' : ?x = _ |- _ =>
      rewrite H in H';
      first [discriminate H' | inversion H'; subst; clear H']
  end.

(** Membership in a log that computes. *)
Ltac find_in := vm_compute; repeat first [left; reflexivity | right].

(** C10. A submission whose create request is answered with a non-success
    status and a body that is not JSON does not crash: [response.json()]
    rejects, the [catch] branch logs the rejection and sets the message to
    'Error submitting comment. Please try again.', the call completes
    normally, and the form is not reset.  Both components. *)
Theorem unparseable_error_body_falls_back `{engine : Runtime} :
  (forall p E ev (w : world Recaptcha.refs) rq r e,
     In (OResponse rq (inr r)) (log E (Recaptcha.submitComment p ev) w) ->
     method rq = POST -> ok r = false -> json r = inl e ->
     fst (run E (Recaptcha.submitComment p ev) w) = inr tt /\
     Recaptcha.message (st (snd (run E (Recaptcha.submitComment p ev) w)))
       = VStr "Error submitting comment. Please try again." /\
     In (OConsoleError "Submit error:" (LError e))
        (log E (Recaptcha.submitComment p ev) w) /\
     dom (snd (run E (Recaptcha.submitComment p ev) w)) = dom w /\
     form_resets (log E (Recaptcha.submitComment p ev) w) = 0%nat)
  /\
  (forall p E ev (w : world Basic.refs) rq r e,
     In (OResponse rq (inr r)) (log E (Basic.submitComment p ev) w) ->
     method rq = POST -> ok r = false -> json r = inl e ->
     fst (run E (Basic.submitComment p ev) w) = inr tt /\
     Basic.message (st (snd (run E (Basic.submitComment p ev) w)))
       = VStr "Error submitting comment. Please try again." /\
     In (OConsoleError "Submit error:" (LError e))
        (log E (Basic.submitComment p ev) w) /\
     dom (snd (run E (Basic.submitComment p ev) w)) = dom w /\
     form_resets (log E (Basic.submitComment p ev) w) = 0%nat).
Proof.
  split; intros p E ev w rq r e.
  - run_cases; intros Hin Hm Hok Hj; pick_obs;
      try (cbn in Hm; discriminate Hm); try congruence.
    all: same_answers.
    all: cbn; intuition.
  - run_cases; intros Hin Hm Hok Hj; pick_obs;
      try (cbn in Hm; discriminate Hm); try congruence.
    all: same_answers.
    all: cbn; intuition.
Qed.

Lemma unparseable_error_body_falls_back_witness :
  Recaptcha.message
    (st (snd (run (always gateway_error)
                (Recaptcha.submitComment sample_props
                   (Recaptcha.submit_event_of sample_props fresh_page))
                fresh_page)))
  = VStr "Error submitting comment. Please try again." /\
  Basic.message
    (st (snd (run (always gateway_error)
                (Basic.submitComment sample_basic_props
                   (mkSubmit (Basic.form_entries sample_form)))
                fresh_basic_page)))
  = VStr "Error submitting comment. Please try again.".
Proof.
  split.
  - refine (proj1 (proj2 (proj1 unparseable_error_body_falls_back
      sample_props (always gateway_error)
      (Recaptcha.submit_event_of sample_props fresh_page) fresh_page
      (Recaptcha.create_request sample_props
         (Recaptcha.commentData_of
            (Recaptcha.form_entries sample_props Recaptcha.initial_refs
               sample_form)))
      gateway_error SyntaxError _ eq_refl eq_refl eq_refl))).
    find_in.
  - refine (proj1 (proj2 (proj2 unparseable_error_body_falls_back
      sample_basic_props (always gateway_error)
      (mkSubmit (Basic.form_entries sample_form)) fresh_basic_page
      (Basic.create_request sample_basic_props
         (Basic.commentData_of (Basic.form_entries sample_form)))
      gateway_error SyntaxError _ eq_refl eq_refl eq_refl))).
    find_in.
Defined.

Lemma truthy_nonempty (m : string) : m <> "" -> truthy (VStr m) = true.
Proof.
  intro Hm. unfold truthy.
  destruct (String.eqb_spec m ""); [contradiction | reflexivity].
Qed.

(** C4, the claim as stated fails: a 400 answer whose body is
    [{"message": ""}] contains a message field, yet what is shown is the
    generic fallback and not the (empty) server message. *)
Lemma empty_error_message_counterexample :
  In (OResponse
        (Recaptcha.create_request sample_props
           (Recaptcha.commentData_of
              (target (Recaptcha.submit_event_of sample_props fresh_page))))
        (inr rejected_silently))
     (log (always rejected_silently)
        (Recaptcha.submitComment sample_props
           (Recaptcha.submit_event_of sample_props fresh_page))
        fresh_page) /\
  ok rejected_silently = false /\
  json rejected_silently = inr (VObj [("message", VStr "")]) /\
  Recaptcha.message
    (st (snd (run (always rejected_silently)
                (Recaptcha.submitComment sample_props
                   (Recaptcha.submit_event_of sample_props fresh_page))
                fresh_page)))
  = VStr "Error submitting comment. Please try again." /\
  Recaptcha.message
    (st (snd (run (always rejected_silently)
                (Recaptcha.submitComment sample_props
                   (Recaptcha.submit_event_of sample_props fresh_page))
                fresh_page)))
  <> VStr "".
Proof.
  split; [find_in |].
  split; [reflexivity |].
  split; [reflexivity |].
  split; [reflexivity |].
  vm_compute. discriminate.
Qed.

(** C4, amended.  A submission whose create request is answered with a
    non-success status and a JSON body: a non-empty [message] (any truthy
    one) is shown verbatim; a body without [message], or with an empty
    (falsy) one, or a body that is [null], gives
    'Error submitting comment. Please try again.'; the form is not reset.
    Both components. *)
Theorem error_message_shown_or_fallback `{engine : Runtime} :
  (forall p E ev (w : world Recaptcha.refs) rq r body,
     In (OResponse rq (inr r)) (log E (Recaptcha.submitComment p ev) w) ->
     method rq = POST -> ok r = false -> json r = inr body ->
     (forall m, get_prop body "message" = inr (VStr m) -> m <> "" ->
        Recaptcha.message (st (snd (run E (Recaptcha.submitComment p ev) w)))
        = VStr m) /\
     (forall m, get_prop body "message" = inr m -> truthy m = true ->
        Recaptcha.message (st (snd (run E (Recaptcha.submitComment p ev) w)))
        = m) /\
     (forall m, get_prop body "message" = inr m -> truthy m = false ->
        Recaptcha.message (st (snd (run E (Recaptcha.submitComment p ev) w)))
        = VStr "Error submitting comment. Please try again.") /\
     (forall e, get_prop body "message" = inl e ->
        Recaptcha.message (st (snd (run E (Recaptcha.submitComment p ev) w)))
        = VStr "Error submitting comment. Please try again.") /\
     dom (snd (run E (Recaptcha.submitComment p ev) w)) = dom w /\
     form_resets (log E (Recaptcha.submitComment p ev) w) = 0%nat)
  /\
  (forall p E ev (w : world Basic.refs) rq r body,
     In (OResponse rq (inr r)) (log E (Basic.submitComment p ev) w) ->
     method rq = POST -> ok r = false -> json r = inr body ->
     (forall m, get_prop body "message" = inr (VStr m) -> m <> "" ->
        Basic.message (st (snd (run E (Basic.submitComment p ev) w)))
        = VStr m) /\
     (forall m, get_prop body "message" = inr m -> truthy m = true ->
        Basic.message (st (snd (run E (Basic.submitComment p ev) w))) = m) /\
     (forall m, get_prop body "message" = inr m -> truthy m = false ->
        Basic.message (st (snd (run E (Basic.submitComment p ev) w)))
        = VStr "Error submitting comment. Please try again.") /\
     (forall e, get_prop body "message" = inl e ->
        Basic.message (st (snd (run E (Basic.submitComment p ev) w)))
        = VStr "Error submitting comment. Please try again.") /\
     dom (snd (run E (Basic.submitComment p ev) w)) = dom w /\
     form_resets (log E (Basic.submitComment p ev) w) = 0%nat).
Proof.
  split; intros p E ev w rq r body.
  - run_cases; intros Hin Hm Hok Hj; pick_obs;
      try (cbn in Hm; discriminate Hm); try congruence.
    all: same_answers.
    all: unfold js_or; cbn; repeat split; try reflexivity; intros;
      repeat match goal with
      | H : get_prop ?b _ = _, H' : get_prop ?b _ = _ |- _ =>
          rewrite H in H'; inversion H'; subst; clear H'
      | H : ?m <> "" |- _ => apply truthy_nonempty in H
      | H : truthy ?m = _, H' : truthy ?m = _ |- _ => rewrite H in H'
      | H : truthy ?m = _ |- context [truthy ?m] => rewrite H
      end; try reflexivity; try discriminate.
  - run_cases; intros Hin Hm Hok Hj; pick_obs;
      try (cbn in Hm; discriminate Hm); try congruence.
    all: same_answers.
    all: unfold js_or; cbn; repeat split; try reflexivity; intros;
      repeat match goal with
      | H : get_prop ?b _ = _, H' : get_prop ?b _ = _ |- _ =>
          rewrite H in H'; inversion H'; subst; clear H'
      | H : ?m <> "" |- _ => apply truthy_nonempty in H
      | H : truthy ?m = _, H' : truthy ?m = _ |- _ => rewrite H in H'
      | H : truthy ?m = _ |- context [truthy ?m] => rewrite H
      end; try reflexivity; try discriminate.
Qed.

Lemma error_message_shown_or_fallback_witness :
  Recaptcha.message
    (st (snd (run (always duplicate)
                (Recaptcha.submitComment sample_props
                   (Recaptcha.submit_event_of sample_props fresh_page))
                fresh_page)))
  = VStr "Duplicate comment detected" /\
  Basic.message
    (st (snd (run (always duplicate)
                (Basic.submitComment sample_basic_props
                   (mkSubmit (Basic.form_entries sample_form)))
                fresh_basic_page)))
  = VStr "Duplicate comment detected".
Proof.
  split.
  - refine (proj1 (proj1 error_message_shown_or_fallback
      sample_props (always duplicate)
      (Recaptcha.submit_event_of sample_props fresh_page) fresh_page
      (Recaptcha.create_request sample_props
         (Recaptcha.commentData_of
            (Recaptcha.form_entries sample_props Recaptcha.initial_refs
               sample_form)))
      duplicate _ _ eq_refl eq_refl eq_refl)
      "Duplicate comment detected" eq_refl _).
    + find_in.
    + discriminate.
  - refine (proj1 (proj2 error_message_shown_or_fallback
      sample_basic_props (always duplicate)
      (mkSubmit (Basic.form_entries sample_form)) fresh_basic_page
      (Basic.create_request sample_basic_props
         (Basic.commentData_of (Basic.form_entries sample_form)))
      duplicate _ _ eq_refl eq_refl eq_refl)
      "Duplicate comment detected" eq_refl _).
    + find_in.
    + discriminate.
Defined.

(** A value that has one property has them all: only [null] and
    [undefined] throw. *)
Lemma get_prop_total (v : value) (k k' : string) (e : error) (a : value) :
  get_prop v k = inl e -> get_prop v k' = inr a -> False.
Proof.
  destruct v; cbn; intros H H'; discriminate.
Qed.

Ltac absurd_prop :=
  match goal with
  | H : get_prop ?v _ = inl _, H' : get_prop ?v _ = inr _ |- _ =>
      destruct (@get_prop_total _ _ _ _ _ H H')
  end.




(** C2. With bot mitigation enabled and no token obtained (no reCAPTCHA
    instance, [execute] rejected, or an empty token), [submitComment]
    sends no request at all, sets the message to
    'Failed to verify reCAPTCHA. Please try again.' and returns: the refs
    are those before the call with that message and [submitting] false,
    which is exactly "only the message changed" whenever [submitting] was
    false before; the form is untouched. *)
Theorem missing_token_blocks_submission `{engine : Runtime} :
  forall p E ev (w : world Recaptcha.refs) enabled token,
    get_prop (Recaptcha.recaptchaConfig (st w)) "enabled" = inr enabled ->
    truthy enabled = true ->
    fst (run E Recaptcha.getRecaptchaToken w) = inr token ->
    truthy token = false ->
    fst (run E (Recaptcha.submitComment p ev) w) = inr tt /\
    (forall rq, ~ In (ORequest rq) (log E (Recaptcha.submitComment p ev) w)) /\
    requests_of POST (log E (Recaptcha.submitComment p ev) w) = [] /\
    Recaptcha.message (st (snd (run E (Recaptcha.submitComment p ev) w)))
    = VStr "Failed to verify reCAPTCHA. Please try again." /\
    st (snd (run E (Recaptcha.submitComment p ev) w))
    = Recaptcha.set_submitting false
        (Recaptcha.set_message
           (VStr "Failed to verify reCAPTCHA. Please try again.") (st w)) /\
    (Recaptcha.submitting (st w) = false ->
     st (snd (run E (Recaptcha.submitComment p ev) w))
     = Recaptcha.set_message
         (VStr "Failed to verify reCAPTCHA. Please try again.") (st w)) /\
    dom (snd (run E (Recaptcha.submitComment p ev) w)) = dom w.
Proof.
  intros p E ev w enabled token He Ht.
  run_cases; run_cases.
  all: cbn [fst]; intros Hr Hf; inversion Hr; subst.
  all: try congruence.
  all: try match goal with
         | H : negb true = true |- _ => discriminate H
         end.
  all: repeat split; try reflexivity.
  all: try (intros rq Hin; pick_obs).
  all: intro Hs; destruct (st w); cbn in *; subst; reflexivity.
Qed.

Lemma missing_token_blocks_submission_witness :
  Recaptcha.message
    (st (snd (run offline
                (Recaptcha.submitComment sample_props
                   (Recaptcha.submit_event_of sample_props guarded_page))
                guarded_page)))
  = VStr "Failed to verify reCAPTCHA. Please try again.".
Proof.
  exact (proj1 (proj2 (proj2 (proj2
    (@missing_token_blocks_submission _ sample_props offline
       (Recaptcha.submit_event_of sample_props guarded_page) guarded_page
       (VBool true) VNull eq_refl eq_refl eq_refl eq_refl))))).
Defined.

(* ================================================================== *)
(** * The list request *)
(* ================================================================== *)

(** C8, the claim as stated fails: the prop's validator only warns, and
    [fetchComments] upper-cases whatever order the page passes.  With
    [order="newest"] the list request carries [order=NEWEST], which is
    neither ASC nor DESC. *)
Lemma unvalidated_order_counterexample :
  let a := Recaptcha.mkAttrs "12" "https://blog.example" "k3y"
             (Some "newest") in
  Recaptcha.validator (Recaptcha.order (Recaptcha.defineProps a)) = false /\
  requests_of GET
    (log offline (Recaptcha.fetchComments (Recaptcha.defineProps a))
       fresh_page)
  = [mkRequest
       "https://blog.example/wp-json/headless-comments/v1/posts/12/comments?order=NEWEST"
       GET [("X-API-Key", "k3y")] None] /\
  Recaptcha.orderParam (Recaptcha.defineProps a) = "NEWEST" /\
  Recaptcha.orderParam (Recaptcha.defineProps a) <> "ASC" /\
  Recaptcha.orderParam (Recaptcha.defineProps a) <> "DESC".
Proof.
  cbv zeta.
  split; [reflexivity |].
  split; [reflexivity |].
  split; [reflexivity |].
  split; vm_compute; discriminate.
Qed.

(** C8, amended.  Every call of [fetchComments] sends exactly one
    request: a GET to the list endpoint of the post with [?order=o] and
    the [X-API-Key] header, where [o] is DESC for an empty order and the
    upper-cased order otherwise.  [o] is ASC or DESC exactly when the
    order is empty or passes the prop's validator; when the page passes
    no order, [o] is the upper-cased default, which is DESC. *)
Theorem list_request_has_order_and_key `{engine : Runtime} :
  forall a E (w : world Recaptcha.refs),
    exists o,
      o = (if Recaptcha.order (Recaptcha.defineProps a) =? ""
           then "DESC"
           else toUpperCase (Recaptcha.order (Recaptcha.defineProps a))) /\
      ((o = "ASC" \/ o = "DESC") <->
       (Recaptcha.order (Recaptcha.defineProps a) = "" \/
        Recaptcha.validator (Recaptcha.order (Recaptcha.defineProps a))
        = true)) /\
      (attr_order_absent a = true ->
       o = toUpperCase "DESC" /\ (toUpperCase "DESC" = "DESC" -> o = "DESC")) /\
      (forall rq,
         In (ORequest rq)
            (log E (Recaptcha.fetchComments (Recaptcha.defineProps a)) w) ->
         url rq
         = Recaptcha.attr_endpoint a
             ++ "/wp-json/headless-comments/v1/posts/"
             ++ Recaptcha.attr_post_id a
             ++ "/comments?order=" ++ o /\
         method rq = GET /\
         In ("X-API-Key", Recaptcha.attr_api_key a) (headers rq)) /\
      requests_of GET
        (log E (Recaptcha.fetchComments (Recaptcha.defineProps a)) w)
      = [Recaptcha.list_request (Recaptcha.defineProps a)] /\
      requests_of POST
        (log E (Recaptcha.fetchComments (Recaptcha.defineProps a)) w)
      = [].
Proof.
  intros a E w.
  exists (Recaptcha.orderParam (Recaptcha.defineProps a)).
  assert (O : Recaptcha.orderParam (Recaptcha.defineProps a)
              = (if Recaptcha.order (Recaptcha.defineProps a) =? ""
                 then "DESC"
                 else toUpperCase (Recaptcha.order (Recaptcha.defineProps a)))).
  { unfold Recaptcha.orderParam.
    destruct (Recaptcha.order (Recaptcha.defineProps a) =? ""); reflexivity. }
  split; [exact O |]. split.
  { rewrite O. unfold Recaptcha.validator. cbn [includes].
    destruct (String.eqb_spec (Recaptcha.order (Recaptcha.defineProps a)) "")
      as [Hz | Hnz].
    - split; [intros _; left; exact Hz | intros _; right; reflexivity].
    - split.
      + intros [-> | ->]; right; reflexivity.
      + intros [Hz | V]; [contradiction |].
        destruct (String.eqb_spec "ASC"
                    (toUpperCase (Recaptcha.order (Recaptcha.defineProps a))))
          as [Ha | _]; [left; symmetry; exact Ha |].
        destruct (String.eqb_spec "DESC"
                    (toUpperCase (Recaptcha.order (Recaptcha.defineProps a))))
          as [Hd | _]; [right; symmetry; exact Hd |].
        cbn in V. discriminate V. }
  split.
  { rewrite O. unfold attr_order_absent.
    destruct a as [i e k [o |]]; cbn; [discriminate |].
    intros _. split; [reflexivity | intro U; exact U]. }
  split.
  - run_cases; intros rq Hin; pick_obs;
      (split; [reflexivity | split; [reflexivity | left; reflexivity]]).
  - split; run_cases; reflexivity.
Qed.

Lemma list_request_has_order_and_key_witness :
  (exists o,
     o = "ASC" /\
     (o = "ASC" \/ o = "DESC") /\
     requests_of GET
       (log offline
          (Recaptcha.fetchComments
             (Recaptcha.defineProps
                (Recaptcha.mkAttrs "12" "https://blog.example"
                   "k3y" (Some "asc"))))
          fresh_page)
     = [mkRequest
          "https://blog.example/wp-json/headless-comments/v1/posts/12/comments?order=ASC"
          GET [("X-API-Key", "k3y")] None]) /\
  (exists o,
     o = "DESC" /\
     forall rq,
       In (ORequest rq)
          (log offline
             (Recaptcha.fetchComments
                (Recaptcha.defineProps
                   (Recaptcha.mkAttrs "12" "https://blog.example"
                      "k3y" None)))
             fresh_page) ->
       url rq
       = "https://blog.example" ++ "/wp-json/headless-comments/v1/posts/"
           ++ "12" ++ "/comments?order=" ++ o).
Proof.
  split.
  - destruct (@list_request_has_order_and_key ascii_engine
                (Recaptcha.mkAttrs "12" "https://blog.example" "k3y"
                   (Some "asc"))
                offline fresh_page)
      as [o [H1 [H2 [_ [_ [H5 _]]]]]].
    exists o. split; [exact H1 |]. split; [| exact H5].
    apply (proj2 H2). right. reflexivity.
  - destruct (@list_request_has_order_and_key ascii_engine
                (Recaptcha.mkAttrs "12" "https://blog.example" "k3y" None)
                offline fresh_page)
      as [o [_ [_ [H3 [H4 _]]]]].
    exists o. split; [exact (proj2 (H3 eq_refl) eq_refl) |].
    intros rq Hin. exact (proj1 (H4 rq Hin)).
Defined.

(* ================================================================== *)
(** * Replying to a comment *)
(* ================================================================== *)

(** What a click on "Reply to Jane" and what "Cancel reply" leave behind. *)
Lemma run_reply_click (E : env) (w : world Recaptcha.refs) :
  run E (Recaptcha.handleReplyClick reply_to_jane) w
  = (inr tt,
     mkWorld
       (Recaptcha.set_replyingTo
          (Some (Recaptcha.mkReply "42" "Reply to Jane")) (st w))
       (dom w) (clock w)
       ((trace w ++ [OPreventDefault])
          ++ [OSetTimeout (ScrollToForm "respond" "#comment") 100])%list).
Proof. reflexivity. Qed.

Lemma run_cancelReply (E : env) (w : world Recaptcha.refs) :
  run E Recaptcha.cancelReply w
  = (inr tt,
     mkWorld (Recaptcha.set_replyingTo None (st w)) (dom w) (clock w)
       (trace w)).
Proof. reflexivity. Qed.

(** C6, the claim as stated fails: once the reply is cancelled the hidden
    input holds the text "0", and that text, not the number 0, is the
    [parent] of the next payload. *)
Lemma parent_after_cancel_counterexample :
  requests_of POST
    (log (always held_for_moderation)
       (Recaptcha.submitComment sample_props
          (Recaptcha.submit_event_of sample_props
             (snd (run offline Recaptcha.cancelReply
                (snd (run offline (Recaptcha.handleReplyClick reply_to_jane)
                        fresh_page))))))
       (snd (run offline Recaptcha.cancelReply
          (snd (run offline (Recaptcha.handleReplyClick reply_to_jane)
                  fresh_page)))))
  = [Recaptcha.create_request sample_props
       (VObj [("author_name", VStr "Jane");
              ("author_email", VStr "jane@example.org");
              ("content", VStr "Nice post");
              ("parent", VStr "0")])] /\
  payload_parent
    (Recaptcha.create_request sample_props
       (VObj [("author_name", VStr "Jane");
              ("author_email", VStr "jane@example.org");
              ("content", VStr "Nice post");
              ("parent", VStr "0")]))
  <> Some (VNum 0).
Proof.
  split; [reflexivity | vm_compute; discriminate].
Qed.

(** C6, amended.  A click on the reply link of comment "42" labelled
    "Reply to Jane" makes [replyingTo] equal to
    [{id: "42", replyTo: "Reply to Jane"}], and every create request of a
    submission made from that page carries [parent] "42"; [cancelReply]
    sets [replyingTo] to [null], and every create request of a submission
    made from that page carries [parent] "0", the text of the hidden
    input. *)
Theorem reply_target_sets_parent `{engine : Runtime} :
  forall p E (w : world Recaptcha.refs),
    let w1 := snd (run E (Recaptcha.handleReplyClick reply_to_jane) w) in
    let w2 := snd (run E Recaptcha.cancelReply w1) in
    Recaptcha.replyingTo (st w1)
    = Some (Recaptcha.mkReply "42" "Reply to Jane") /\
    (forall E' rq,
       In (ORequest rq)
          (log E' (Recaptcha.submitComment p (Recaptcha.submit_event_of p w1))
             w1) ->
       method rq = POST -> payload_parent rq = Some (VStr "42")) /\
    Recaptcha.replyingTo (st w2) = None /\
    (forall E' rq,
       In (ORequest rq)
          (log E' (Recaptcha.submitComment p (Recaptcha.submit_event_of p w2))
             w2) ->
       method rq = POST -> payload_parent rq = Some (VStr "0")).
Proof.
  intros p E w w1 w2. subst w2 w1.
  rewrite run_cancelReply, run_reply_click. cbn [snd st trace dom clock].
  generalize ((trace w ++ [OPreventDefault])
     ++ [OSetTimeout (ScrollToForm "respond" "#comment") 100])%list.
  intro t.
  split; [reflexivity |]. split; [| split; [reflexivity |]].
  - intros E' rq. run_cases; intros Hin Hm; pick_obs;
      try (cbn in Hm; discriminate Hm); reflexivity.
  - intros E' rq. run_cases; intros Hin Hm; pick_obs;
      try (cbn in Hm; discriminate Hm); reflexivity.
Qed.

Lemma reply_target_sets_parent_witness :
  payload_parent
    (Recaptcha.create_request sample_props
       (VObj [("author_name", VStr "Jane");
              ("author_email", VStr "jane@example.org");
              ("content", VStr "Nice post");
              ("parent", VStr "42")]))
  = Some (VStr "42").
Proof.
  refine (proj1 (proj2 (@reply_target_sets_parent _ sample_props offline
                          fresh_page))
            (always held_for_moderation)
            (Recaptcha.create_request sample_props
               (VObj [("author_name", VStr "Jane");
                      ("author_email", VStr "jane@example.org");
                      ("content", VStr "Nice post");
                      ("parent", VStr "42")]))
            _ eq_refl).
  find_in.
Defined.

(* ================================================================== *)
(** * Mounting *)
(* ================================================================== *)

Lemma log_bind {St A B : Type} (E : env) (p : prog St A) (f : A -> prog St B)
      (w : world St) :
  log E (bind p f) w =
  (log E p w ++
   match run E p w with
   | (inr a, w1) => log E (f a) w1
   | (inl _, _) => []
   end)%list.
Proof.
  apply log_of_trace. rewrite run_bind.
  pose proof (run_trace E p w) as T.
  destruct (run E p w) as [[e | a] w1]; cbn [snd] in *.
  - rewrite app_nil_r. exact T.
  - rewrite run_trace, T, app_assoc. reflexivity.
Qed.

(** [fetchRecaptchaConfig] never throws; it sends the config request first
    and no other request. *)
Lemma fetchRecaptchaConfig_log (p : Recaptcha.props) (E : env)
      (w : world Recaptcha.refs) :
  fst (run E (Recaptcha.fetchRecaptchaConfig p) w) = inr tt /\
  exists r mid,
    log E (Recaptcha.fetchRecaptchaConfig p) w
    = ORequest (Recaptcha.config_request p)
        :: OResponse (Recaptcha.config_request p) r :: mid /\
    quiet mid = true.
Proof.
  run_cases; (split; [reflexivity | do 2 eexists; split; reflexivity]).
Qed.

(** [fetchComments] sends the list request first and no other request. *)
Lemma fetchComments_log `{engine : Runtime} (p : Recaptcha.props) (E : env)
      (w : world Recaptcha.refs) :
  exists r tail,
    log E (Recaptcha.fetchComments p) w
    = ORequest (Recaptcha.list_request p)
        :: OResponse (Recaptcha.list_request p) r :: tail /\
    quiet tail = true.
Proof.
  run_cases; (do 2 eexists; split; reflexivity).
Qed.

(** C7. On mount the whole of [fetchRecaptchaConfig] (its request, the
    response, the parsing of the body and the loading of the reCAPTCHA
    library when it applies) is over before the list request is issued:
    the log of [onMounted] is the log of the config fetch followed by the
    log of the comment fetch, with exactly one config request and one list
    request, in that order, and the comment fetch starts from the page the
    config fetch left. *)
Theorem mount_fetches_config_then_comments `{engine : Runtime} :
  forall p E (w : world Recaptcha.refs),
    exists r1 mid r2 tail,
      log E (Recaptcha.onMounted p) w
      = ((ORequest (Recaptcha.config_request p)
            :: OResponse (Recaptcha.config_request p) r1 :: mid)
         ++ (ORequest (Recaptcha.list_request p)
               :: OResponse (Recaptcha.list_request p) r2 :: tail))%list /\
      log E (Recaptcha.fetchRecaptchaConfig p) w
      = ORequest (Recaptcha.config_request p)
          :: OResponse (Recaptcha.config_request p) r1 :: mid /\
      quiet mid = true /\
      quiet tail = true /\
      run E (Recaptcha.onMounted p) w
      = run E (Recaptcha.fetchComments p)
          (snd (run E (Recaptcha.fetchRecaptchaConfig p) w)).
Proof.
  intros p E w.
  destruct (fetchRecaptchaConfig_log p E w) as [Hc [r1 [mid [Lc Qc]]]].
  destruct (fetchComments_log p E
              (snd (run E (Recaptcha.fetchRecaptchaConfig p) w)))
    as [r2 [tail [Lf Qf]]].
  exists r1, mid, r2, tail.
  unfold Recaptcha.onMounted.
  rewrite log_bind, run_bind, log_await_call, run_await_call, Lc.
  destruct (run E (Recaptcha.fetchRecaptchaConfig p) w) as [[e | []] w1];
    cbn [fst snd] in *; [discriminate Hc |].
  rewrite log_await_call, run_await_call, Lf. repeat split; assumption.
Qed.

(* ================================================================== *)
(** * A submission in flight *)
(* ================================================================== *)

(** All the pages a call can be suspended at. *)
Ltac susp_cases :=
  lazymatch goal with
  | |- context [suspensions ?E ?p ?w] =>
      let R := fresh "R" in
      let l := fresh "l" in
      remember (suspensions E p w) as l eqn:R;
      symmetry in R;
      unfold_calls R; exec_in R;
      subst l
  end;
  cbn [observe].

(** C1, the claim as stated fails: [submitComment] does not test
    [submitting].  Called again while the first call is suspended at its
    create request (the flag is true), it sends a second create request. *)
Lemma resubmission_counterexample :
  let event := Recaptcha.submit_event_of sample_props fresh_page in
  let first := Recaptcha.submitComment sample_props event in
  let pending := snd (start first fresh_page) in
  let again := snd (start (Recaptcha.submitComment sample_props event) pending) in
  In pending (suspensions (always published) first fresh_page) /\
  Recaptcha.submitting (st pending) = true /\
  List.length (requests_of POST (trace pending)) = 1%nat /\
  List.length (requests_of POST (trace again)) = 2%nat /\
  again <> pending.
Proof.
  cbv zeta.
  split; [left; reflexivity |].
  split; [reflexivity |].
  split; [reflexivity |].
  split; [reflexivity |].
  intro H. apply (f_equal (fun w => List.length (trace w))) in H.
  vm_compute in H. discriminate H.
Qed.

(** C1, amended.  At every [await] of a call of [submitComment] (the
    token, the create request, the body of the answer, the list fetched
    again and its own requests) the [submitting] flag is true, so the
    submit button is disabled and activating it dispatches nothing,
    whatever the form holds: the page is unchanged and no request leaves;
    once the call has completed the button is enabled again.
    ([submitComment] itself has no re-entry test: see the
    counterexample.) *)
Theorem pending_submission_disables_submit `{engine : Runtime} :
  forall p E ev (w ws : world Recaptcha.refs),
    In ws (suspensions E (Recaptcha.submitComment p ev) w) ->
    Recaptcha.submitting (st ws) = true /\
    Recaptcha.submit_disabled (st ws) = true /\
    (forall email_ok,
       Recaptcha.press_submit p email_ok ws = (Finished (inr tt), ws)) /\
    Recaptcha.submit_disabled
      (st (snd (run E (Recaptcha.submitComment p ev) w))) = false.
Proof.
  intros p E ev w ws Hin.
  assert (S : Recaptcha.submitting (st ws) = true).
  { revert Hin. susp_cases; intro Hin; cbn [In] in Hin;
      repeat match goal with
      | H : _ \/ _ |- _ => destruct H
      | H : False |- _ => destruct H
      end; subst ws; reflexivity. }
  split; [exact S |]. split; [exact S |]. split.
  - intro email_ok. unfold Recaptcha.press_submit, Recaptcha.submit_disabled.
    rewrite S. reflexivity.
  - unfold Recaptcha.submit_disabled. run_cases; reflexivity.
Qed.

Lemma pending_submission_disables_submit_witness :
  Recaptcha.press_submit sample_props true
    (snd (start (Recaptcha.submitComment sample_props
                   (Recaptcha.submit_event_of sample_props fresh_page))
            fresh_page))
  = (Finished (inr tt),
     snd (start (Recaptcha.submitComment sample_props
                   (Recaptcha.submit_event_of sample_props fresh_page))
            fresh_page)) /\
  Recaptcha.submit_disabled
    (st (snd (start (Recaptcha.submitComment sample_props
                       (Recaptcha.submit_event_of sample_props guarded_page))
                guarded_page)))
  = true.
Proof.
  split.
  - refine (proj1 (proj2 (proj2
      (@pending_submission_disables_submit _ sample_props (always published)
         (Recaptcha.submit_event_of sample_props fresh_page) fresh_page
         _ _))) true).
    left; reflexivity.
  - refine (proj1 (proj2
      (@pending_submission_disables_submit _ sample_props offline
         (Recaptcha.submit_event_of sample_props guarded_page) guarded_page
         _ _))).
    left; reflexivity.
Defined.

(* ================================================================== *)
(** * Beyond the claims *)
(* ================================================================== *)

(** An answer of the environment met a second time. *)
Ltac open_answers :=
  repeat match goal with
  | H : inr _ = inr _ |- _ => inversion H; subst; clear H
  | H : inl _ = inl _ |- _ => inversion H; subst; clear H
  | H : inl _ = inr _ |- _ => discriminate H
  | H : inr _ = inl _ |- _ => discriminate H
  end.

(* ================================================================== *)
(** * Further properties of [submitComment] *)
(* ================================================================== *)

(** X1. An accepted submission (success status, a JSON body that is not
    [null]) resets the form exactly once and, in the reCAPTCHA component,
    clears the reply target, whatever [approved] says and however the
    re-fetch goes. *)
Theorem accepted_submission_resets_form `{engine : Runtime} :
  (forall p E ev (w : world Recaptcha.refs) rq r result m,
     In (OResponse rq (inr r)) (log E (Recaptcha.submitComment p ev) w) ->
     method rq = POST -> ok r = true -> json r = inr result ->
     get_prop result "message" = inr m ->
     dom (snd (run E (Recaptcha.submitComment p ev) w)) = blank_form /\
     form_resets (log E (Recaptcha.submitComment p ev) w) = 1%nat /\
     Recaptcha.replyingTo (st (snd (run E (Recaptcha.submitComment p ev) w)))
     = None)
  /\
  (forall p E ev (w : world Basic.refs) rq r result m,
     In (OResponse rq (inr r)) (log E (Basic.submitComment p ev) w) ->
     method rq = POST -> ok r = true -> json r = inr result ->
     get_prop result "message" = inr m ->
     dom (snd (run E (Basic.submitComment p ev) w)) = blank_form /\
     form_resets (log E (Basic.submitComment p ev) w) = 1%nat).
Proof.
  split; intros p E ev w rq r result m.
  - run_cases; intros Hin Hm Hok Hj Hg; pick_obs;
      try (cbn in Hm; discriminate Hm); try congruence.
    all: same_answers; try absurd_prop.
    all: repeat split; reflexivity.
  - run_cases; intros Hin Hm Hok Hj Hg; pick_obs;
      try (cbn in Hm; discriminate Hm); try congruence.
    all: same_answers; try absurd_prop.
    all: repeat split; reflexivity.
Qed.

Lemma accepted_submission_resets_form_witness :
  dom (snd (run (always held_for_moderation)
              (Recaptcha.submitComment sample_props
                 (Recaptcha.submit_event_of sample_props fresh_page))
              fresh_page))
  = blank_form /\
  dom (snd (run (always published)
              (Basic.submitComment sample_basic_props
                 (mkSubmit (Basic.form_entries sample_form)))
              fresh_basic_page))
  = blank_form.
Proof.
  split.
  - refine (proj1 (proj1 accepted_submission_resets_form
      sample_props (always held_for_moderation)
      (Recaptcha.submit_event_of sample_props fresh_page) fresh_page
      (Recaptcha.create_request sample_props
         (Recaptcha.commentData_of
            (Recaptcha.form_entries sample_props Recaptcha.initial_refs
               sample_form)))
      held_for_moderation _ _ _ eq_refl eq_refl eq_refl eq_refl)).
    find_in.
  - refine (proj1 (proj2 accepted_submission_resets_form
      sample_basic_props (always published)
      (mkSubmit (Basic.form_entries sample_form)) fresh_basic_page
      (Basic.create_request sample_basic_props
         (Basic.commentData_of (Basic.form_entries sample_form)))
      published _ _ _ eq_refl eq_refl eq_refl eq_refl)).
    find_in.
Defined.

(** X2. When the create request itself is rejected (no network), the
    visitor sees 'Error submitting comment. Please try again.', the
    rejection is logged, the form keeps what was typed, the reply target
    stays, and the list is not fetched again. *)
Theorem rejected_create_request_keeps_form `{engine : Runtime} :
  (forall p E ev (w : world Recaptcha.refs) rq e,
     In (OResponse rq (inl e)) (log E (Recaptcha.submitComment p ev) w) ->
     method rq = POST ->
     Recaptcha.message (st (snd (run E (Recaptcha.submitComment p ev) w)))
     = VStr "Error submitting comment. Please try again." /\
     In (OConsoleError "Submit error:" (LError e))
        (log E (Recaptcha.submitComment p ev) w) /\
     dom (snd (run E (Recaptcha.submitComment p ev) w)) = dom w /\
     Recaptcha.replyingTo (st (snd (run E (Recaptcha.submitComment p ev) w)))
     = Recaptcha.replyingTo (st w) /\
     requests_of GET (log E (Recaptcha.submitComment p ev) w) = [])
  /\
  (forall p E ev (w : world Basic.refs) rq e,
     In (OResponse rq (inl e)) (log E (Basic.submitComment p ev) w) ->
     method rq = POST ->
     Basic.message (st (snd (run E (Basic.submitComment p ev) w)))
     = VStr "Error submitting comment. Please try again." /\
     In (OConsoleError "Submit error:" (LError e))
        (log E (Basic.submitComment p ev) w) /\
     dom (snd (run E (Basic.submitComment p ev) w)) = dom w /\
     requests_of GET (log E (Basic.submitComment p ev) w) = []).
Proof.
  split; intros p E ev w rq e.
  - run_cases; intros Hin Hm; pick_obs;
      try (cbn in Hm; discriminate Hm); try congruence.
    all: repeat split; try reflexivity; cbn [In]; tauto.
  - run_cases; intros Hin Hm; pick_obs;
      try (cbn in Hm; discriminate Hm); try congruence.
    all: repeat split; try reflexivity; cbn [In]; tauto.
Qed.

Lemma rejected_create_request_keeps_form_witness :
  dom (snd (run offline
              (Recaptcha.submitComment sample_props
                 (Recaptcha.submit_event_of sample_props fresh_page))
              fresh_page))
  = sample_form /\
  dom (snd (run offline
              (Basic.submitComment sample_basic_props
                 (mkSubmit (Basic.form_entries sample_form)))
              fresh_basic_page))
  = sample_form.
Proof.
  split.
  - refine (proj1 (proj2 (proj2 (proj1 rejected_create_request_keeps_form
      sample_props offline
      (Recaptcha.submit_event_of sample_props fresh_page) fresh_page
      (Recaptcha.create_request sample_props
         (Recaptcha.commentData_of
            (Recaptcha.form_entries sample_props Recaptcha.initial_refs
               sample_form)))
      NetworkError _ eq_refl)))).
    find_in.
  - refine (proj1 (proj2 (proj2 (proj2 rejected_create_request_keeps_form
      sample_basic_props offline
      (mkSubmit (Basic.form_entries sample_form)) fresh_basic_page
      (Basic.create_request sample_basic_props
         (Basic.commentData_of (Basic.form_entries sample_form)))
      NetworkError _ eq_refl)))).
    find_in.
Defined.

(** X3. A success status does not suffice: when the body of an accepted
    create request cannot be parsed, or parses to [null], the visitor is
    told 'Error submitting comment. Please try again.', the form is not
    reset, the reply target stays and nothing is fetched again. *)
Theorem unusable_success_body_reported_as_error `{engine : Runtime} :
  (forall p E ev (w : world Recaptcha.refs) rq r,
     In (OResponse rq (inr r)) (log E (Recaptcha.submitComment p ev) w) ->
     method rq = POST -> ok r = true ->
     ((exists e, json r = inl e) \/
      (exists v e, json r = inr v /\ get_prop v "message" = inl e)) ->
     Recaptcha.message (st (snd (run E (Recaptcha.submitComment p ev) w)))
     = VStr "Error submitting comment. Please try again." /\
     dom (snd (run E (Recaptcha.submitComment p ev) w)) = dom w /\
     form_resets (log E (Recaptcha.submitComment p ev) w) = 0%nat /\
     Recaptcha.replyingTo (st (snd (run E (Recaptcha.submitComment p ev) w)))
     = Recaptcha.replyingTo (st w) /\
     requests_of GET (log E (Recaptcha.submitComment p ev) w) = [])
  /\
  (forall p E ev (w : world Basic.refs) rq r,
     In (OResponse rq (inr r)) (log E (Basic.submitComment p ev) w) ->
     method rq = POST -> ok r = true ->
     ((exists e, json r = inl e) \/
      (exists v e, json r = inr v /\ get_prop v "message" = inl e)) ->
     Basic.message (st (snd (run E (Basic.submitComment p ev) w)))
     = VStr "Error submitting comment. Please try again." /\
     dom (snd (run E (Basic.submitComment p ev) w)) = dom w /\
     form_resets (log E (Basic.submitComment p ev) w) = 0%nat /\
     requests_of GET (log E (Basic.submitComment p ev) w) = []).
Proof.
  split; intros p E ev w rq r.
  - run_cases; intros Hin Hm Hok; pick_obs;
      try (cbn in Hm; discriminate Hm); try congruence.
    all: intros [[e' Hj] | [v' [e' [Hj Hg]]]]; same_answers;
      try absurd_prop.
    all: repeat split; reflexivity.
  - run_cases; intros Hin Hm Hok; pick_obs;
      try (cbn in Hm; discriminate Hm); try congruence.
    all: intros [[e' Hj] | [v' [e' [Hj Hg]]]]; same_answers;
      try absurd_prop.
    all: repeat split; reflexivity.
Qed.

Lemma unusable_success_body_reported_as_error_witness :
  Recaptcha.message
    (st (snd (run (always (mkResponse true 200 "OK" (inr VNull)))
                (Recaptcha.submitComment sample_props
                   (Recaptcha.submit_event_of sample_props fresh_page))
                fresh_page)))
  = VStr "Error submitting comment. Please try again." /\
  Basic.message
    (st (snd (run (always (mkResponse true 200 "OK" (inl SyntaxError)))
                (Basic.submitComment sample_basic_props
                   (mkSubmit (Basic.form_entries sample_form)))
                fresh_basic_page)))
  = VStr "Error submitting comment. Please try again.".
Proof.
  split.
  - refine (proj1 (proj1 unusable_success_body_reported_as_error
      sample_props (always (mkResponse true 200 "OK" (inr VNull)))
      (Recaptcha.submit_event_of sample_props fresh_page) fresh_page
      (Recaptcha.create_request sample_props
         (Recaptcha.commentData_of
            (Recaptcha.form_entries sample_props Recaptcha.initial_refs
               sample_form)))
      (mkResponse true 200 "OK" (inr VNull)) _ eq_refl eq_refl
      (or_intror (ex_intro _ VNull (ex_intro _ TypeError
                    (conj eq_refl eq_refl)))))).
    find_in.
  - refine (proj1 (proj2 unusable_success_body_reported_as_error
      sample_basic_props (always (mkResponse true 200 "OK" (inl SyntaxError)))
      (mkSubmit (Basic.form_entries sample_form)) fresh_basic_page
      (Basic.create_request sample_basic_props
         (Basic.commentData_of (Basic.form_entries sample_form)))
      (mkResponse true 200 "OK" (inl SyntaxError)) _ eq_refl eq_refl
      (or_introl (ex_intro _ SyntaxError eq_refl)))).
    find_in.
Defined.

(** X4. What the create request carries for bot mitigation.  With
    [recaptchaConfig.enabled] falsy the payload is the four form fields
    and nothing else, and [execute] is never called; with it truthy, a
    create request is only ever sent with the non-empty token [execute]
    resolved to, as [recaptcha_token]. *)
Theorem create_request_token `{engine : Runtime} :
  forall p E ev (w : world Recaptcha.refs) rq enabled,
    In (ORequest rq) (log E (Recaptcha.submitComment p ev) w) ->
    method rq = POST ->
    get_prop (Recaptcha.recaptchaConfig (st w)) "enabled" = inr enabled ->
    (truthy enabled = false ->
       body rq = Some (Recaptcha.commentData_of (target ev)) /\
       payload_field rq "recaptcha_token" = Some VUndefined /\
       existsb is_execute (log E (Recaptcha.submitComment p ev) w) = false)
    /\
    (truthy enabled = true ->
       exists token,
         In (OExecuteDone (inr token))
            (log E (Recaptcha.submitComment p ev) w) /\
         truthy token = true /\
         body rq = Some (set_prop (Recaptcha.commentData_of (target ev))
                           "recaptcha_token" token) /\
         payload_field rq "recaptcha_token" = Some token).
Proof.
  intros p E ev w rq enabled.
  run_cases; intros Hin Hm He; pick_obs;
    try (cbn in Hm; discriminate Hm); try congruence.
  all: same_answers.
  all: split; intro Ht; try congruence.
  all: try (repeat split; reflexivity).
  all: eexists; split; [cbn [In]; right; right; left; reflexivity |].
  all: repeat split; try assumption; reflexivity.
Qed.

Lemma create_request_token_witness :
  exists token,
    In (OExecuteDone (inr token))
       (log (always held_for_moderation)
          (Recaptcha.submitComment sample_props
             (Recaptcha.submit_event_of sample_props fresh_page))
          (mkWorld
             (Recaptcha.set_recaptchaInstance
                (Some (ReCaptchaInstance (VStr "site"))) (st guarded_page))
             sample_form 0 [])) /\
    truthy token = true /\
    payload_field
      (Recaptcha.create_request sample_props
         (set_prop
            (Recaptcha.commentData_of
               (Recaptcha.form_entries sample_props Recaptcha.initial_refs
                  sample_form))
            "recaptcha_token" (VStr "token")))
      "recaptcha_token"
    = Some token.
Proof.
  destruct (proj2 (@create_request_token _ sample_props
      (always held_for_moderation)
      (Recaptcha.submit_event_of sample_props fresh_page)
      (mkWorld
         (Recaptcha.set_recaptchaInstance
            (Some (ReCaptchaInstance (VStr "site"))) (st guarded_page))
         sample_form 0 [])
      (Recaptcha.create_request sample_props
         (set_prop
            (Recaptcha.commentData_of
               (Recaptcha.form_entries sample_props Recaptcha.initial_refs
                  sample_form))
            "recaptcha_token" (VStr "token")))
      (VBool true)
      ltac:(find_in) eq_refl eq_refl) eq_refl)
    as [token [H1 [H2 [_ H4]]]].
  exists token. split; [exact H1 |]. split; [exact H2 | exact H4].
Defined.

(** X5. One call of [submitComment] sends at most one create request and
    at most one list request; the create request goes to the comments
    resource of the post with the JSON content type and the API key; and
    a list request is only ever sent after the create request was answered
    with a success status: what the log holds before the first GET
    contains that answer. *)
Theorem submission_request_budget `{engine : Runtime} :
  forall p E ev (w : world Recaptcha.refs),
    (List.length (requests_of POST (log E (Recaptcha.submitComment p ev) w))
     <= 1)%nat /\
    (List.length (requests_of GET (log E (Recaptcha.submitComment p ev) w))
     <= 1)%nat /\
    (forall rq,
       In rq (requests_of POST (log E (Recaptcha.submitComment p ev) w)) ->
       url rq = Recaptcha.endpoint p
                  ++ "/wp-json/headless-comments/v1/posts/"
                  ++ Recaptcha.post_id p ++ "/comments" /\
       headers rq = [("Content-Type", "application/json");
                     ("X-API-Key", Recaptcha.api_key p)]) /\
    (forall before first_get,
       until_request GET (log E (Recaptcha.submitComment p ev) w)
       = Some (before, first_get) ->
       first_get = Recaptcha.list_request p /\
       exists rq r,
         In (OResponse rq (inr r)) before /\
         method rq = POST /\ ok r = true).
Proof.
  intros p E ev w.
  run_cases.
  all: unfold requests_of;
    cbn [flat_map method Recaptcha.create_request Recaptcha.list_request
         app List.length].
  all: split; [lia |]; split; [lia |]; split.
  all: lazymatch goal with
       | |- forall rq, In rq _ -> _ =>
           intros rq Hin; cbn [In] in Hin;
           first [ destruct Hin as [<- | []]; split; reflexivity
                 | destruct Hin ]
       | |- _ =>
           intros before first_get U;
           cbn [until_request method Recaptcha.create_request
                Recaptcha.list_request] in U;
           try discriminate U
       end.
  all: inversion U; subst before first_get; clear U.
  all: split; [reflexivity |]; do 2 eexists; split;
    [cbn [In]; repeat first [left; reflexivity | right] | split;
     [reflexivity | assumption]].
Qed.

Lemma submission_request_budget_witness :
  exists before,
    until_request GET
      (log (always published)
         (Recaptcha.submitComment sample_props
            (Recaptcha.submit_event_of sample_props fresh_page))
         fresh_page)
    = Some (before, Recaptcha.list_request sample_props) /\
    exists rq r,
      In (OResponse rq (inr r)) before /\ method rq = POST /\ ok r = true.
Proof.
  eexists. split; [vm_compute; reflexivity |].
  exact (proj2 (proj2 (proj2 (proj2
    (@submission_request_budget _ sample_props (always published)
       (Recaptcha.submit_event_of sample_props fresh_page) fresh_page)))
    _ _ eq_refl)).
Defined.

Lemma comment_parent_input_nonempty (s : Recaptcha.refs) :
  Recaptcha.comment_parent_input s <> "".
Proof.
  unfold Recaptcha.comment_parent_input.
  destruct (Recaptcha.replyingTo s) as [r |]; [| discriminate].
  destruct (String.eqb_spec (Recaptcha.id r) ""); [discriminate | assumption].
Qed.

(** X6. A submission dispatched by the form carries what the controls of
    the form hold: the values of the three visible controls (what the
    browser keeps of the typing, see [form]) as they are, and as [parent]
    the text of the hidden input, which is the id of the reply target or
    "0" and is never empty, so that the [|| 0] default of [submitComment]
    is never taken. *)
Theorem form_submission_payload `{engine : Runtime} :
  forall p E (w : world Recaptcha.refs) rq,
    In (ORequest rq)
       (log E (Recaptcha.submitComment p (Recaptcha.submit_event_of p w)) w) ->
    method rq = POST ->
    payload_field rq "author_name" = Some (VStr (author_name (dom w))) /\
    payload_field rq "author_email" = Some (VStr (author_email (dom w))) /\
    payload_field rq "content" = Some (VStr (content (dom w))) /\
    payload_field rq "parent"
    = Some (VStr (Recaptcha.comment_parent_input (st w))) /\
    payload_field rq "parent" <> Some (VNum 0) /\
    (forall r, Recaptcha.replyingTo (st w) = Some r -> Recaptcha.id r <> "" ->
       payload_field rq "parent" = Some (VStr (Recaptcha.id r))) /\
    (Recaptcha.replyingTo (st w) = None ->
       payload_field rq "parent" = Some (VStr "0")).
Proof.
  intros p E w rq.
  assert (J : js_or (VStr (Recaptcha.comment_parent_input (st w))) (VNum 0)
              = VStr (Recaptcha.comment_parent_input (st w))).
  { unfold js_or.
    rewrite (truthy_nonempty (@comment_parent_input_nonempty (st w))).
    reflexivity. }
  assert (K : forall rq',
            (body rq' = Some (Recaptcha.commentData_of
                                (Recaptcha.form_entries p (st w) (dom w))) \/
             exists t, body rq'
                       = Some (set_prop
                                 (Recaptcha.commentData_of
                                    (Recaptcha.form_entries p (st w) (dom w)))
                                 "recaptcha_token" t)) ->
            payload_field rq' "author_name" = Some (VStr (author_name (dom w))) /\
            payload_field rq' "author_email"
            = Some (VStr (author_email (dom w))) /\
            payload_field rq' "content" = Some (VStr (content (dom w))) /\
            payload_field rq' "parent"
            = Some (VStr (Recaptcha.comment_parent_input (st w)))).
  { intros rq' [Hb | [t Hb]]; unfold payload_field; rewrite Hb;
      unfold Recaptcha.commentData_of, Recaptcha.form_entries;
      cbn -[js_or Recaptcha.comment_parent_input]; rewrite J;
      repeat split; reflexivity. }
  intros Hin Hm.
  assert (B : body rq = Some (Recaptcha.commentData_of
                                (Recaptcha.form_entries p (st w) (dom w))) \/
              exists t, body rq
                        = Some (set_prop
                                  (Recaptcha.commentData_of
                                     (Recaptcha.form_entries p (st w) (dom w)))
                                  "recaptcha_token" t)).
  { revert Hin Hm. unfold Recaptcha.submit_event_of.
    run_cases; intros Hin Hm; pick_obs;
      try (cbn in Hm; discriminate Hm);
      cbn [body Recaptcha.create_request target];
      first [left; reflexivity | right; eexists; reflexivity]. }
  destruct (K rq B) as [K1 [K2 [K3 K4]]].
  split; [exact K1 |]. split; [exact K2 |]. split; [exact K3 |].
  split; [exact K4 |]. split; [rewrite K4; discriminate |]. split.
  - intros r Hr Hid. rewrite K4. unfold Recaptcha.comment_parent_input.
    rewrite Hr. destruct (String.eqb_spec (Recaptcha.id r) "");
      [contradiction | reflexivity].
  - intro Hr. rewrite K4. unfold Recaptcha.comment_parent_input.
    rewrite Hr. reflexivity.
Qed.

Lemma form_submission_payload_witness :
  payload_field
    (Recaptcha.create_request sample_props
       (Recaptcha.commentData_of
          (Recaptcha.form_entries sample_props Recaptcha.initial_refs
             sample_form)))
    "author_name"
  = Some (VStr "Jane").
Proof.
  refine (proj1 (@form_submission_payload _ sample_props
                   (always held_for_moderation) fresh_page
                   (Recaptcha.create_request sample_props
                      (Recaptcha.commentData_of
                         (Recaptcha.form_entries sample_props
                            Recaptcha.initial_refs sample_form)))
                   _ eq_refl)).
  find_in.
Defined.

(** X7. [submitComment] never touches the reCAPTCHA configuration or the
    loaded instance, and unless it fetched the list again it leaves the
    comments and the loading flag as they were. *)
Theorem submission_frame `{engine : Runtime} :
  forall p E ev (w : world Recaptcha.refs),
    Recaptcha.recaptchaConfig
      (st (snd (run E (Recaptcha.submitComment p ev) w)))
    = Recaptcha.recaptchaConfig (st w) /\
    Recaptcha.recaptchaInstance
      (st (snd (run E (Recaptcha.submitComment p ev) w)))
    = Recaptcha.recaptchaInstance (st w) /\
    (requests_of GET (log E (Recaptcha.submitComment p ev) w) = [] ->
     Recaptcha.commentsData
       (st (snd (run E (Recaptcha.submitComment p ev) w)))
     = Recaptcha.commentsData (st w) /\
     Recaptcha.loading (st (snd (run E (Recaptcha.submitComment p ev) w)))
     = Recaptcha.loading (st w)).
Proof.
  intros p E ev w.
  run_cases.
  all: split; [cbn; congruence |]; split; [cbn; congruence |].
  all: unfold requests_of;
    cbn [flat_map method Recaptcha.create_request Recaptcha.list_request app].
  all: intro H; try discriminate H; split; reflexivity.
Qed.

Lemma submission_frame_witness :
  Recaptcha.commentsData
    (st (snd (run (always held_for_moderation)
                (Recaptcha.submitComment sample_props
                   (Recaptcha.submit_event_of sample_props fresh_page))
                fresh_page)))
  = VNull.
Proof.
  exact (proj1 (proj2 (proj2 (@submission_frame _ sample_props
    (always held_for_moderation)
    (Recaptcha.submit_event_of sample_props fresh_page) fresh_page))
    eq_refl)).
Defined.

(* ================================================================== *)
(** * The reCAPTCHA configuration *)
(* ================================================================== *)

(** A submission from a page whose [recaptchaConfig] is [null]. *)
Lemma submit_with_null_config `{engine : Runtime} p E ev (w : world Recaptcha.refs) e :
  get_prop (Recaptcha.recaptchaConfig (st w)) "enabled" = inl e ->
  (forall rq, ~ In (ORequest rq) (log E (Recaptcha.submitComment p ev) w)) /\
  Recaptcha.message (st (snd (run E (Recaptcha.submitComment p ev) w)))
  = VStr "Error submitting comment. Please try again." /\
  dom (snd (run E (Recaptcha.submitComment p ev) w)) = dom w.
Proof.
  run_cases; intro He; try congruence.
  split; [intros rq Hin; pick_obs |]. split; reflexivity.
Qed.

(** A submission from a page whose configuration is enabled while no
    instance is loaded. *)
Lemma submit_without_instance `{engine : Runtime} p E ev (w : world Recaptcha.refs) en :
  get_prop (Recaptcha.recaptchaConfig (st w)) "enabled" = inr en ->
  truthy en = true ->
  Recaptcha.recaptchaInstance (st w) = None ->
  (forall rq, ~ In (ORequest rq) (log E (Recaptcha.submitComment p ev) w)) /\
  Recaptcha.message (st (snd (run E (Recaptcha.submitComment p ev) w)))
  = VStr "Failed to verify reCAPTCHA. Please try again." /\
  dom (snd (run E (Recaptcha.submitComment p ev) w)) = dom w.
Proof.
  run_cases; intros He Ht Hi; try congruence.
  all: same_answers; try congruence.
  all: try match goal with
         | H : negb true = true |- _ => discriminate H
         end.
  all: split; [intros rq Hin; pick_obs |]; split; reflexivity.
Qed.

(** X8. A config endpoint that answers with a success status and the JSON
    body [null] leaves [recaptchaConfig] null: the failure is logged at
    mount, and from then on every submission stops before any request is
    sent, with 'Error submitting comment. Please try again.'. *)
Theorem null_config_blocks_every_submission `{engine : Runtime} :
  forall p E (w : world Recaptcha.refs) r,
    net E (clock w) (Recaptcha.config_request p) = inr r ->
    ok r = true -> json r = inr VNull ->
    Recaptcha.recaptchaConfig
      (st (snd (run E (Recaptcha.fetchRecaptchaConfig p) w))) = VNull /\
    In (OConsoleError "Error fetching reCAPTCHA config:" (LError TypeError))
       (log E (Recaptcha.fetchRecaptchaConfig p) w) /\
    forall E' ev,
      (forall rq,
         ~ In (ORequest rq)
             (log E' (Recaptcha.submitComment p ev)
                (snd (run E (Recaptcha.fetchRecaptchaConfig p) w)))) /\
      Recaptcha.message
        (st (snd (run E' (Recaptcha.submitComment p ev)
                    (snd (run E (Recaptcha.fetchRecaptchaConfig p) w)))))
      = VStr "Error submitting comment. Please try again.".
Proof.
  intros p E w r Hn Hok Hj.
  assert (A : Recaptcha.recaptchaConfig
                (st (snd (run E (Recaptcha.fetchRecaptchaConfig p) w)))
              = VNull /\
              In (OConsoleError "Error fetching reCAPTCHA config:"
                    (LError TypeError))
                 (log E (Recaptcha.fetchRecaptchaConfig p) w)).
  { run_cases; try (cbn in *; discriminate).
    all: match goal with
         | H : get_prop VNull _ = inl _ |- _ =>
             cbn in H; inversion H; subst
         end.
    all: split; [reflexivity | cbn [In]; tauto]. }
  destruct A as [A1 A2]. split; [exact A1 |]. split; [exact A2 |].
  intros E' ev.
  destruct (@submit_with_null_config _ p E' ev
              (snd (run E (Recaptcha.fetchRecaptchaConfig p) w)) TypeError)
    as [B1 [B2 _]].
  - rewrite A1. reflexivity.
  - split; assumption.
Qed.

Lemma null_config_blocks_every_submission_witness :
  Recaptcha.message
    (st (snd (run offline
                (Recaptcha.submitComment sample_props
                   (Recaptcha.submit_event_of sample_props fresh_page))
                (snd (run (always (mkResponse true 200 "OK" (inr VNull)))
                        (Recaptcha.fetchRecaptchaConfig sample_props)
                        fresh_page)))))
  = VStr "Error submitting comment. Please try again.".
Proof.
  exact (proj2 (proj2 (proj2 (@null_config_blocks_every_submission _
    sample_props (always (mkResponse true 200 "OK" (inr VNull))) fresh_page
    (mkResponse true 200 "OK" (inr VNull)) eq_refl eq_refl eq_refl))
    offline (Recaptcha.submit_event_of sample_props fresh_page))).
Defined.

(** X9. [fetchRecaptchaConfig] writes nothing but [recaptchaConfig] and
    [recaptchaInstance] and leaves the form alone.  A rejected or
    non-success answer changes no ref at all; a success answer stores the
    parsed body, whatever it is, as the configuration. *)
Theorem config_fetch_frame :
  forall p E (w : world Recaptcha.refs),
    Recaptcha.commentsData
      (st (snd (run E (Recaptcha.fetchRecaptchaConfig p) w)))
    = Recaptcha.commentsData (st w) /\
    Recaptcha.loading (st (snd (run E (Recaptcha.fetchRecaptchaConfig p) w)))
    = Recaptcha.loading (st w) /\
    Recaptcha.submitting
      (st (snd (run E (Recaptcha.fetchRecaptchaConfig p) w)))
    = Recaptcha.submitting (st w) /\
    Recaptcha.message (st (snd (run E (Recaptcha.fetchRecaptchaConfig p) w)))
    = Recaptcha.message (st w) /\
    Recaptcha.replyingTo
      (st (snd (run E (Recaptcha.fetchRecaptchaConfig p) w)))
    = Recaptcha.replyingTo (st w) /\
    dom (snd (run E (Recaptcha.fetchRecaptchaConfig p) w)) = dom w /\
    (fetch_failed (net E (clock w) (Recaptcha.config_request p)) = true ->
     st (snd (run E (Recaptcha.fetchRecaptchaConfig p) w)) = st w) /\
    (forall r config,
       net E (clock w) (Recaptcha.config_request p) = inr r ->
       ok r = true -> json r = inr config ->
       Recaptcha.recaptchaConfig
         (st (snd (run E (Recaptcha.fetchRecaptchaConfig p) w)))
       = config).
Proof.
  intros p E w.
  run_cases.
  all: do 6 (split; [reflexivity |]).
  all: split;
    [ intro F; cbn [fetch_failed] in F;
      try match goal with
          | H : ok _ = true |- _ => rewrite H in F; discriminate F
          end; reflexivity
    | intros r' config Hn Hok Hj; open_answers; same_answers;
      cbn; congruence ].
Qed.

(** X10. The reCAPTCHA library is loaded only for a configuration that
    has just been stored, whose [enabled] and [site_key] are truthy, and
    with that [site_key]; the instance becomes what [load] resolved to,
    and stays as it was when [load] was not called or was rejected (the
    rejection being logged). *)
Theorem recaptcha_loaded_only_when_enabled :
  forall p E (w : world Recaptcha.refs),
    (forall k,
       In (OLoadStart k) (log E (Recaptcha.fetchRecaptchaConfig p) w) ->
       truthy k = true /\
       get_prop (Recaptcha.recaptchaConfig
                   (st (snd (run E (Recaptcha.fetchRecaptchaConfig p) w))))
         "site_key" = inr k /\
       exists enabled,
         get_prop (Recaptcha.recaptchaConfig
                     (st (snd (run E (Recaptcha.fetchRecaptchaConfig p) w))))
           "enabled" = inr enabled /\
         truthy enabled = true) /\
    (forall i,
       In (OLoadDone (inr i)) (log E (Recaptcha.fetchRecaptchaConfig p) w) ->
       Recaptcha.recaptchaInstance
         (st (snd (run E (Recaptcha.fetchRecaptchaConfig p) w)))
       = Some i) /\
    ((forall i,
        ~ In (OLoadDone (inr i))
            (log E (Recaptcha.fetchRecaptchaConfig p) w)) ->
     Recaptcha.recaptchaInstance
       (st (snd (run E (Recaptcha.fetchRecaptchaConfig p) w)))
     = Recaptcha.recaptchaInstance (st w)) /\
    (forall e,
       In (OLoadDone (inl e)) (log E (Recaptcha.fetchRecaptchaConfig p) w) ->
       In (OConsoleError "Error loading reCAPTCHA:" (LError e))
          (log E (Recaptcha.fetchRecaptchaConfig p) w)).
Proof.
  intros p E w.
  run_cases.
  all: split; [intros k Hin; pick_obs;
               (cbn; split; [assumption |]; split; [assumption |];
                eexists; split; eassumption) |].
  all: split; [intros i Hin; pick_obs; reflexivity |].
  all: split; [intro Hno; try reflexivity;
               exfalso; eapply Hno; cbn [In];
               repeat first [left; reflexivity | right] |].
  all: intros e' Hin; pick_obs; cbn [In]; tauto.
Qed.

(** X11. When the server enables reCAPTCHA but the library does not get
    loaded at mount ([load] rejected, or no [site_key] to load it with),
    every later submission is stopped before any request is sent, with
    'Failed to verify reCAPTCHA. Please try again.', and the form keeps
    what was typed. *)
Theorem failed_recaptcha_load_blocks_submissions `{engine : Runtime} :
  forall p E (w : world Recaptcha.refs) r config enabled,
    Recaptcha.recaptchaInstance (st w) = None ->
    net E (clock w) (Recaptcha.config_request p) = inr r ->
    ok r = true -> json r = inr config ->
    get_prop config "enabled" = inr enabled -> truthy enabled = true ->
    (forall i,
       ~ In (OLoadDone (inr i))
           (log E (Recaptcha.fetchRecaptchaConfig p) w)) ->
    forall E' ev,
      (forall rq,
         ~ In (ORequest rq)
             (log E' (Recaptcha.submitComment p ev)
                (snd (run E (Recaptcha.fetchRecaptchaConfig p) w)))) /\
      Recaptcha.message
        (st (snd (run E' (Recaptcha.submitComment p ev)
                    (snd (run E (Recaptcha.fetchRecaptchaConfig p) w)))))
      = VStr "Failed to verify reCAPTCHA. Please try again." /\
      dom (snd (run E' (Recaptcha.submitComment p ev)
                  (snd (run E (Recaptcha.fetchRecaptchaConfig p) w))))
      = dom w.
Proof.
  intros p E w r config enabled Hi Hn Hok Hj He Ht Hno E' ev.
  assert (A : Recaptcha.recaptchaConfig
                (st (snd (run E (Recaptcha.fetchRecaptchaConfig p) w)))
              = config /\
              Recaptcha.recaptchaInstance
                (st (snd (run E (Recaptcha.fetchRecaptchaConfig p) w)))
              = None /\
              dom (snd (run E (Recaptcha.fetchRecaptchaConfig p) w)) = dom w).
  { revert Hno. run_cases; intro Hno; open_answers; same_answers;
      try (cbn in *; congruence).
    all: try (repeat split; cbn; congruence).
    exfalso. eapply Hno. cbn [In].
    repeat first [left; reflexivity | right]. }
  destruct A as [A1 [A2 A3]].
  rewrite <- A3.
  apply (@submit_without_instance _ p E' ev
           (snd (run E (Recaptcha.fetchRecaptchaConfig p) w)) enabled).
  - rewrite A1. exact He.
  - exact Ht.
  - exact A2.
Qed.

Lemma failed_recaptcha_load_blocks_submissions_witness :
  Recaptcha.message
    (st (snd (run (always published)
                (Recaptcha.submitComment sample_props
                   (Recaptcha.submit_event_of sample_props fresh_page))
                (snd (run (mkEnv
                             (fun _ _ =>
                                inr (mkResponse true 200 "OK"
                                       (inr (VObj [("enabled", VBool true);
                                                   ("site_key", VStr "site")]))))
                             (fun _ _ => inl (Failure "blocked"))
                             (fun _ _ _ => inl (Failure "blocked")))
                        (Recaptcha.fetchRecaptchaConfig sample_props)
                        fresh_page)))))
  = VStr "Failed to verify reCAPTCHA. Please try again.".
Proof.
  refine (proj1 (proj2 (@failed_recaptcha_load_blocks_submissions _
    sample_props
    (mkEnv
       (fun _ _ =>
          inr (mkResponse true 200 "OK"
                 (inr (VObj [("enabled", VBool true);
                             ("site_key", VStr "site")]))))
       (fun _ _ => inl (Failure "blocked"))
       (fun _ _ _ => inl (Failure "blocked")))
    fresh_page _ _ (VBool true) eq_refl eq_refl eq_refl eq_refl eq_refl
    eq_refl _ (always published)
    (Recaptcha.submit_event_of sample_props fresh_page)))).
  intros i Hin. vm_compute in Hin.
  repeat match goal with
  | H : _ \/ _ |- _ => destruct H
  | H : False |- _ => destruct H
  | H : @eq obs _ _ |- _ => discriminate H
  end.
Defined.

(** X12. [getRecaptchaToken] on a configuration that is not [null]: it
    never throws and changes neither refs nor form; it calls [execute]
    only when the configuration is enabled and an instance is loaded, and
    then once, for the action 'submit_comment'; it returns the token
    [execute] resolved to as it is, and [null] in every other case,
    logging the rejection of [execute] if there was one. *)
Theorem recaptcha_token_cases :
  forall E (w : world Recaptcha.refs) enabled,
    get_prop (Recaptcha.recaptchaConfig (st w)) "enabled" = inr enabled ->
    st (snd (run E Recaptcha.getRecaptchaToken w)) = st w /\
    dom (snd (run E Recaptcha.getRecaptchaToken w)) = dom w /\
    ((truthy enabled = false \/ Recaptcha.recaptchaInstance (st w) = None) ->
     run E Recaptcha.getRecaptchaToken w = (inr VNull, w)) /\
    (forall i,
       truthy enabled = true ->
       Recaptcha.recaptchaInstance (st w) = Some i ->
       match recaptcha_execute E (clock w) i "submit_comment" with
       | inr token =>
           fst (run E Recaptcha.getRecaptchaToken w) = inr token /\
           log E Recaptcha.getRecaptchaToken w
           = [OExecuteStart "submit_comment"; OExecuteDone (inr token)]
       | inl e =>
           fst (run E Recaptcha.getRecaptchaToken w) = inr VNull /\
           log E Recaptcha.getRecaptchaToken w
           = [OExecuteStart "submit_comment"; OExecuteDone (inl e);
              OConsoleError "Error getting reCAPTCHA token:" (LError e)]
       end).
Proof.
  intros E w enabled He.
  run_cases.
  all: split; [reflexivity |]; split; [reflexivity |]; split.
  all: try (intros [Ht | Hi]; try congruence; try reflexivity).
  all: try (intros _; reflexivity).
  all: try (intros i Ht Hi; try discriminate Hi; try (injection Hi as <-)).
  all: try match goal with
         | H : negb ?b = _, H' : ?b = _ |- _ =>
             rewrite H' in H; discriminate H
         end.
  all: try (destruct w; reflexivity).
  all: try match goal with
         | H : recaptcha_execute _ _ _ _ = _ |- _ => rewrite H
         end; try (split; reflexivity).
Qed.

Lemma recaptcha_token_cases_witness :
  run offline Recaptcha.getRecaptchaToken guarded_page
  = (inr VNull, guarded_page).
Proof.
  exact (proj1 (proj2 (proj2 (@recaptcha_token_cases offline guarded_page
                                (VBool true) eq_refl)))
           (or_intror eq_refl)).
Defined.

(* ================================================================== *)
(** * Further properties of [fetchComments] and of mounting *)
(* ================================================================== *)

(** X13. A list request answered with a success status: when the body
    parses, it becomes the comments, whatever it is, and nothing is
    logged; when it does not, the comments stay as they were and the
    rejection is logged.  Either way only the comments and [loading]
    change, and the form is untouched.  Both components. *)
Theorem successful_fetch_replaces_comments `{engine : Runtime} :
  (forall p E (w : world Recaptcha.refs) r,
     net E (clock w) (Recaptcha.list_request p) = inr r -> ok r = true ->
     (forall data, json r = inr data ->
        st (snd (run E (Recaptcha.fetchComments p) w))
        = Recaptcha.set_loading false
            (Recaptcha.set_commentsData data (st w)) /\
        log E (Recaptcha.fetchComments p) w
        = [ORequest (Recaptcha.list_request p);
           OResponse (Recaptcha.list_request p) (inr r);
           OJsonStart; OJsonDone (inr data)]) /\
     (forall e, json r = inl e ->
        st (snd (run E (Recaptcha.fetchComments p) w))
        = Recaptcha.set_loading false (st w) /\
        In (OConsoleError "Error fetching comments:" (LError e))
           (log E (Recaptcha.fetchComments p) w)) /\
     dom (snd (run E (Recaptcha.fetchComments p) w)) = dom w)
  /\
  (forall p E (w : world Basic.refs) r,
     net E (clock w) (Basic.list_request p) = inr r -> ok r = true ->
     (forall data, json r = inr data ->
        st (snd (run E (Basic.fetchComments p) w))
        = Basic.set_loading false (Basic.set_comments data (st w)) /\
        log E (Basic.fetchComments p) w
        = [ORequest (Basic.list_request p);
           OResponse (Basic.list_request p) (inr r);
           OJsonStart; OJsonDone (inr data)]) /\
     (forall e, json r = inl e ->
        st (snd (run E (Basic.fetchComments p) w))
        = Basic.set_loading false (st w) /\
        In (OConsoleError "Error fetching comments:" (LError e))
           (log E (Basic.fetchComments p) w)) /\
     dom (snd (run E (Basic.fetchComments p) w)) = dom w).
Proof.
  split; intros p E w r Hn Hok.
  - run_cases; try congruence.
    all: split; [intros data Hj; open_answers; split; reflexivity |].
    all: split; [intros e' Hj; open_answers; try congruence;
                 (split; [reflexivity | cbn [In]; tauto]) | reflexivity].
  - run_cases; try congruence.
    all: split; [intros data Hj; open_answers; split; reflexivity |].
    all: split; [intros e' Hj; open_answers; try congruence;
                 (split; [reflexivity | cbn [In]; tauto]) | reflexivity].
Qed.

Lemma successful_fetch_replaces_comments_witness :
  Recaptcha.commentsData
    (st (snd (run (always published)
                (Recaptcha.fetchComments sample_props) fresh_page)))
  = VObj [("message", VStr "Thanks!"); ("approved", VBool true)] /\
  Basic.comments
    (st (snd (run (always published)
                (Basic.fetchComments sample_basic_props) fresh_basic_page)))
  = VObj [("message", VStr "Thanks!"); ("approved", VBool true)].
Proof.
  split.
  - exact (f_equal Recaptcha.commentsData
             (proj1 (proj1 (proj1 successful_fetch_replaces_comments
                sample_props (always published) fresh_page published
                eq_refl eq_refl) _ eq_refl))).
  - exact (f_equal Basic.comments
             (proj1 (proj1 (proj2 successful_fetch_replaces_comments
                sample_basic_props (always published) fresh_basic_page
                published eq_refl eq_refl) _ eq_refl))).
Defined.



(** X15. What the page shows once [fetchComments] is over.  It never
    stays on 'Loading comments...'.  After a failed fetch it shows what
    the comments held before give: the old list if there was one, and
    'No comments yet' on a page that never had comments.  After a fetch
    that brought data, it shows the [rendered] markup of the data if that
    is truthy and 'No comments yet' otherwise, and the count is
    [data.count || 0]. *)
Theorem panel_after_fetch `{engine : Runtime} :
  forall p E (w : world Recaptcha.refs),
    comments_panel (st (snd (run E (Recaptcha.fetchComments p) w)))
    <> LoadingNotice /\
    (fetch_failed (net E (clock w) (Recaptcha.list_request p)) = true ->
     comments_panel (st (snd (run E (Recaptcha.fetchComments p) w)))
     = comments_panel (Recaptcha.set_loading false (st w)) /\
     (Recaptcha.commentsData (st w) = VNull ->
      comments_panel (st (snd (run E (Recaptcha.fetchComments p) w)))
      = NoComments)) /\
    (forall r data,
       net E (clock w) (Recaptcha.list_request p) = inr r -> ok r = true ->
       json r = inr data ->
       comments_panel (st (snd (run E (Recaptcha.fetchComments p) w)))
       = (if truthy (get_prop_opt data "rendered")
          then CommentsList (get_prop_opt data "rendered")
          else NoComments) /\
       Recaptcha.commentCount (st (snd (run E (Recaptcha.fetchComments p) w)))
       = js_or (get_prop_opt data "count") (VNum 0)).
Proof.
  intros p E w.
  assert (N : forall s, Recaptcha.loading s = false ->
                        comments_panel s <> LoadingNotice).
  { intros s Hs. unfold comments_panel. rewrite Hs.
    destruct (truthy (Recaptcha.renderedComments s)); discriminate. }
  assert (R : forall data,
            truthy (js_or (get_prop_opt data "rendered") (VStr ""))
            = truthy (get_prop_opt data "rendered")).
  { intro data. unfold js_or.
    destruct (truthy (get_prop_opt data "rendered")) eqn:T;
      [exact T | reflexivity]. }
  run_cases.
  all: split; [apply N; reflexivity |].
  all: split;
    [ intro F; cbn [fetch_failed] in F;
      try match goal with
          | H : ok _ = true |- _ => rewrite H in F; discriminate F
          end;
      (split; [reflexivity |];
       intro Hc; unfold comments_panel, Recaptcha.renderedComments;
       cbn -[truthy js_or get_prop_opt]; rewrite Hc; reflexivity)
    | intros r' data Hn Hok Hj; open_answers; same_answers;
      try congruence ].
  all: unfold comments_panel, Recaptcha.renderedComments,
         Recaptcha.commentCount;
    cbn -[truthy js_or get_prop_opt]; rewrite R.
  all: unfold js_or at 1;
    destruct (truthy (get_prop_opt data "rendered")); split; reflexivity.
Qed.



(* ================================================================== *)
(** * Further properties of the reply target *)
(* ================================================================== *)

Lemma run_handleReplyClick (E : env) (w : world Recaptcha.refs)
      (event : click_event) (cid : string) :
  data_commentid event = Some cid -> cid <> "" ->
  run E (Recaptcha.handleReplyClick event) w
  = (inr tt,
     mkWorld
       (Recaptcha.set_replyingTo
          (Some (Recaptcha.mkReply cid
                   (attr_or (data_replyto event) ("Comment #" ++ cid))))
          (st w))
       (dom w) (clock w)
       ((trace w ++ [OPreventDefault])
          ++ [OSetTimeout (ScrollToForm "respond" "#comment") 100])%list).
Proof.
  intros Hc Hne. unfold Recaptcha.handleReplyClick. rewrite Hc.
  unfold attr_truthy.
  destruct (String.eqb_spec cid ""); [contradiction | reflexivity].
Qed.

(** X17. [handleReplyClick] on any link.  Without a [data-commentid], or
    with an empty one, it only prevents the navigation: refs, form and
    timers are untouched.  With one, the reply target becomes that id
    with the link's [data-replyto] as label, or 'Comment #' followed by
    the id when the label is missing or empty; the form title shows the
    label, the hidden input holds the id, the scroll to the form is
    scheduled after 100 ms, and no other ref changes. *)
Theorem reply_click_sets_target :
  forall E (w : world Recaptcha.refs) event,
    (attr_truthy (data_commentid event) = false ->
     st (snd (run E (Recaptcha.handleReplyClick event) w)) = st w /\
     dom (snd (run E (Recaptcha.handleReplyClick event) w)) = dom w /\
     log E (Recaptcha.handleReplyClick event) w = [OPreventDefault]) /\
    (forall cid,
       data_commentid event = Some cid -> cid <> "" ->
       st (snd (run E (Recaptcha.handleReplyClick event) w))
       = Recaptcha.set_replyingTo
           (Some (Recaptcha.mkReply cid
                    (attr_or (data_replyto event) ("Comment #" ++ cid))))
           (st w) /\
       (attr_truthy (data_replyto event) = false ->
        reply_title (st (snd (run E (Recaptcha.handleReplyClick event) w)))
        = "Comment #" ++ cid) /\
       (forall label, data_replyto event = Some label -> label <> "" ->
        reply_title (st (snd (run E (Recaptcha.handleReplyClick event) w)))
        = label) /\
       Recaptcha.comment_parent_input
         (st (snd (run E (Recaptcha.handleReplyClick event) w))) = cid /\
       dom (snd (run E (Recaptcha.handleReplyClick event) w)) = dom w /\
       log E (Recaptcha.handleReplyClick event) w
       = [OPreventDefault;
          OSetTimeout (ScrollToForm "respond" "#comment") 100]).
Proof.
  intros E w event. split.
  - intro Hf. unfold log, Recaptcha.handleReplyClick.
    destruct (data_commentid event) as [cid |]; [rewrite Hf |];
      cbn; rewrite skipn_length_app; repeat split; reflexivity.
  - intros cid Hc Hne. unfold log.
    rewrite (run_handleReplyClick E w event Hc Hne).
    cbn [snd st dom trace]. rewrite <- app_assoc, skipn_length_app.
    split; [reflexivity |]. split; [| split; [| split; [| split]]];
      try reflexivity.
    + intro Hl. unfold reply_title. cbn.
      destruct (data_replyto event) as [l |]; [| reflexivity].
      cbn in Hl |- *. destruct (l =? ""); [reflexivity | discriminate Hl].
    + intros label Hl Hlne. unfold reply_title. cbn. rewrite Hl. cbn.
      destruct (String.eqb_spec label ""); [contradiction | reflexivity].
    + unfold Recaptcha.comment_parent_input. cbn.
      destruct (String.eqb_spec cid ""); [contradiction | reflexivity].
Qed.

Lemma reply_click_sets_target_witness :
  reply_title
    (st (snd (run offline
                (Recaptcha.handleReplyClick (mkClick (Some "7") None))
                fresh_page)))
  = "Comment #7".
Proof.
  refine (proj1 (proj2 (proj2 (@reply_click_sets_target offline fresh_page
                                  (mkClick (Some "7") None))
                           "7" eq_refl _)) eq_refl).
  discriminate.
Defined.

(** X18. There is one reply target at most and it can be dropped: a
    second click on a reply link replaces the target of the first, the
    refs being those the second click alone would give; and
    [cancelReply] after a click gives back the refs of a page that had
    no target, sending nothing and leaving the comments alone. *)
Theorem reply_target_replaced_and_cancelled :
  forall E (w : world Recaptcha.refs) first second a b,
    data_commentid first = Some a -> a <> "" ->
    data_commentid second = Some b -> b <> "" ->
    st (snd (run E (Recaptcha.handleReplyClick second)
               (snd (run E (Recaptcha.handleReplyClick first) w))))
    = st (snd (run E (Recaptcha.handleReplyClick second) w)) /\
    (Recaptcha.replyingTo (st w) = None ->
     st (snd (run E Recaptcha.cancelReply
                (snd (run E (Recaptcha.handleReplyClick first) w))))
     = st w) /\
    Recaptcha.commentsData
      (st (snd (run E Recaptcha.cancelReply
                  (snd (run E (Recaptcha.handleReplyClick first) w)))))
    = Recaptcha.commentsData (st w) /\
    log E Recaptcha.cancelReply
      (snd (run E (Recaptcha.handleReplyClick first) w)) = [].
Proof.
  intros E w first second a b Ha Hane Hb Hbne.
  rewrite (run_handleReplyClick E w first Ha Hane).
  rewrite !(run_handleReplyClick E _ second Hb Hbne).
  unfold log. rewrite !run_cancelReply. cbn [snd st trace].
  rewrite skipn_length_self.
  split; [reflexivity |]. split; [| split; reflexivity].
  intro Hn. destruct (st w); cbn in *; subst; reflexivity.
Qed.

Lemma reply_target_replaced_and_cancelled_witness :
  st (snd (run offline Recaptcha.cancelReply
             (snd (run offline (Recaptcha.handleReplyClick reply_to_jane)
                     fresh_page))))
  = Recaptcha.initial_refs.
Proof.
  refine (proj1 (proj2 (@reply_target_replaced_and_cancelled offline
    fresh_page reply_to_jane reply_to_jane "42" "42" eq_refl _ eq_refl _))
    eq_refl); discriminate.
Defined.

(* ================================================================== *)
(** * The form of VueComments.vue *)
(* ================================================================== *)

(** X20. The form of VueComments.vue has a constant hidden [parent]
    input: every create request it dispatches carries [parent] "0" (never
    the number 0, never a reply), together with the values the three
    visible controls hold (see [form]), to the comments resource of the
    post, with the API key. *)
Theorem basic_form_always_top_level :
  forall p E (w : world Basic.refs) rq,
    In (ORequest rq)
       (log E (Basic.submitComment p (mkSubmit (Basic.form_entries (dom w))))
          w) ->
    method rq = POST ->
    payload_field rq "parent" = Some (VStr "0") /\
    payload_field rq "author_name" = Some (VStr (author_name (dom w))) /\
    payload_field rq "author_email" = Some (VStr (author_email (dom w))) /\
    payload_field rq "content" = Some (VStr (content (dom w))) /\
    url rq = Basic.endpoint p ++ "/wp-json/headless-comments/v1/posts/"
               ++ Basic.post_id p ++ "/comments" /\
    In ("X-API-Key", Basic.api_key p) (headers rq).
Proof.
  intros p E w rq.
  run_cases; intros Hin Hm; pick_obs;
    try (cbn in Hm; discriminate Hm).
  all: repeat split; try reflexivity; cbn; tauto.
Qed.

Lemma basic_form_always_top_level_witness :
  payload_field
    (Basic.create_request sample_basic_props
       (Basic.commentData_of (Basic.form_entries sample_form)))
    "parent"
  = Some (VStr "0").
Proof.
  refine (proj1 (@basic_form_always_top_level sample_basic_props
                   (always published) fresh_basic_page
                   (Basic.create_request sample_basic_props
                      (Basic.commentData_of (Basic.form_entries sample_form)))
                   _ eq_refl)).
  find_in.
Defined.

(* ================================================================== *)
(** * Click listeners *)
(* ================================================================== *)

Lemma attach_one_link (link : list listener) :
  (handlers_on link <= 1)%nat ->
  let link' := addEventListener (removeEventListener link HandleReplyClick)
                 HandleReplyClick in
  handlers_on link' = 1%nat /\
  others_on link' = others_on link /\
  addEventListener (removeEventListener link' HandleReplyClick)
    HandleReplyClick = link'.
Proof.
  intro H.
  assert (R : removeEventListener link HandleReplyClick = others_on link /\
              handlers_on (others_on link) = 0%nat /\
              others_on (others_on link) = others_on link).
  { induction link as [| l rest IH]; [repeat split |].
    unfold handlers_on, others_on in *. cbn [removeEventListener filter] in *.
    destruct (same_listener l HandleReplyClick) eqn:S; cbn [negb List.length] in *.
    - assert (Z : (List.length
                     (filter (fun l0 => same_listener l0 HandleReplyClick)
                        rest) <= 1)%nat) by lia.
      destruct (IH Z) as [I1 [I2 I3]]. split; [| split; assumption].
      clear IH I1 I2 I3 Z.
      assert (Z0 : List.length
                     (filter (fun l0 => same_listener l0 HandleReplyClick)
                        rest) = 0%nat) by lia.
      clear H. induction rest as [| x xs IHx]; [reflexivity |].
      cbn [filter] in *.
      destruct (same_listener x HandleReplyClick); cbn [negb List.length] in *;
        [discriminate Z0 | rewrite <- (IHx Z0); reflexivity].
    - destruct (IH H) as [I1 [I2 I3]]. cbn [filter]. rewrite S.
      cbn [negb List.length]. rewrite I1, I3. repeat split; assumption. }
  destruct R as [R1 [R2 R3]]. cbv zeta. rewrite R1.
  assert (A : existsb (fun l => same_listener l HandleReplyClick)
                (others_on link) = false).
  { clear - R2. unfold handlers_on in R2.
    induction (others_on link) as [| x xs IHx]; [reflexivity |].
    cbn [filter existsb] in *.
    destruct (same_listener x HandleReplyClick); cbn [List.length orb] in *;
      [discriminate R2 | exact (IHx R2)]. }
  assert (AE : addEventListener (others_on link) HandleReplyClick
               = (others_on link ++ [HandleReplyClick])%list).
  { unfold addEventListener. rewrite A. reflexivity. }
  rewrite !AE.
  assert (F1 : handlers_on (others_on link ++ [HandleReplyClick]) = 1%nat).
  { unfold handlers_on in *. rewrite filter_app, length_app, R2.
    reflexivity. }
  assert (F2 : others_on (others_on link ++ [HandleReplyClick])
               = others_on link).
  { unfold others_on at 1. rewrite filter_app. cbn [filter same_listener negb].
    rewrite app_nil_r. exact R3. }
  split; [exact F1 |]. split; [exact F2 |].
  assert (F3 : removeEventListener (others_on link ++ [HandleReplyClick])
                 HandleReplyClick = others_on link).
  { clear - A. induction (others_on link) as [| x xs IHx]; [reflexivity |].
    cbn [existsb app removeEventListener] in *.
    destruct (same_listener x HandleReplyClick); cbn [orb] in A;
      [discriminate A | rewrite (IHx A); reflexivity]. }
  rewrite F3. exact AE.
Qed.

(** X21. After [attachReplyListeners], whatever was registered before
    (each listener at most once, as the DOM keeps them), every reply link
    has [handleReplyClick] exactly once and its other listeners as they
    were, in order; no link is added or dropped; and attaching again
    changes nothing, so that re-renders do not pile handlers up. *)
Theorem attach_leaves_one_handler :
  forall replyLinks,
    Forall (fun link => (handlers_on link <= 1)%nat) replyLinks ->
    List.length (attachReplyListeners replyLinks) = List.length replyLinks /\
    Forall (fun link => handlers_on link = 1%nat)
      (attachReplyListeners replyLinks) /\
    map others_on (attachReplyListeners replyLinks)
    = map others_on replyLinks /\
    attachReplyListeners (attachReplyListeners replyLinks)
    = attachReplyListeners replyLinks.
Proof.
  intros replyLinks H. unfold attachReplyListeners.
  split; [apply length_map |].
  induction H as [| link rest Hl Hr IH]; [repeat split; constructor |].
  destruct IH as [I1 [I2 I3]].
  destruct (@attach_one_link link Hl) as [A1 [A2 A3]].
  cbn [map]. split; [constructor; assumption |].
  split; [rewrite A2, I2; reflexivity |].
  rewrite A3, I3. reflexivity.
Qed.

Lemma attach_leaves_one_handler_witness :
  attachReplyListeners
    (attachReplyListeners
       [[]; [HandleReplyClick; OtherListener 1]; [OtherListener 2]])
  = attachReplyListeners
      [[]; [HandleReplyClick; OtherListener 1]; [OtherListener 2]].
Proof.
  refine (proj2 (proj2 (proj2 (@attach_leaves_one_handler
    [[]; [HandleReplyClick; OtherListener 1]; [OtherListener 2]] _)))).
  repeat constructor.
Defined.

(* ================================================================== *)
(** * Pressing the submit button *)
(* ================================================================== *)

(** X22. Pressing the enabled submit button.  A form the browser finds
    invalid (an empty required control, or no address in the email
    control) is not submitted: nothing changes.  For a valid form
    [submitComment] is called and runs to its first [await]: at that
    moment the button is disabled, the previous message has been cleared,
    the form still holds its values and at most one request has left.
    The only call that ends without awaiting anything is the one that
    finds a [null] configuration: it ends normally with the button enabled
    again, the error text shown and nothing sent. *)
Theorem pressing_submit_starts_submission `{engine : Runtime} :
  forall p email_ok (w : world Recaptcha.refs),
    Recaptcha.submit_disabled (st w) = false ->
    (form_valid email_ok (dom w) = false ->
     Recaptcha.press_submit p email_ok w = (Finished (inr tt), w)) /\
    (form_valid email_ok (dom w) = true ->
     match fst (Recaptcha.press_submit p email_ok w) with
     | Suspended _ _ =>
         Recaptcha.submit_disabled
           (st (snd (Recaptcha.press_submit p email_ok w))) = true /\
         Recaptcha.message (st (snd (Recaptcha.press_submit p email_ok w)))
         = VStr "" /\
         dom (snd (Recaptcha.press_submit p email_ok w)) = dom w /\
         (List.length
            (requests_of POST
               (skipn (List.length (trace w))
                  (trace (snd (Recaptcha.press_submit p email_ok w)))))
          <= 1)%nat
     | Finished r =>
         r = inr tt /\
         get_prop (Recaptcha.recaptchaConfig (st w)) "enabled"
         = inl TypeError /\
         Recaptcha.submit_disabled
           (st (snd (Recaptcha.press_submit p email_ok w))) = false /\
         Recaptcha.message (st (snd (Recaptcha.press_submit p email_ok w)))
         = VStr "Error submitting comment. Please try again." /\
         requests_of POST
           (skipn (List.length (trace w))
              (trace (snd (Recaptcha.press_submit p email_ok w)))) = []
     end).
Proof.
  intros p email_ok w Hd. unfold Recaptcha.press_submit. rewrite Hd.
  split; [intros ->; reflexivity | intros ->].
  unfold Recaptcha.submitComment, Recaptcha.getRecaptchaToken, await_call.
  cbn -[truthy js_or get_prop lookup set_prop String.append
        Recaptcha.create_request Recaptcha.commentData_of skipn].
  destruct (get_prop (Recaptcha.recaptchaConfig (st w)) "enabled")
    as [e | enabled] eqn:He;
    cbn -[truthy js_or get_prop lookup set_prop String.append
          Recaptcha.create_request Recaptcha.commentData_of skipn].
  - rewrite <- app_assoc, skipn_length_app.
    assert (e = TypeError) as ->.
    { destruct (Recaptcha.recaptchaConfig (st w)); cbn in He; congruence. }
    repeat split; reflexivity.
  - destruct (truthy enabled) eqn:Ht;
      cbn -[truthy js_or get_prop lookup set_prop String.append
            Recaptcha.create_request Recaptcha.commentData_of skipn].
    + rewrite He.
      cbn -[truthy js_or get_prop lookup set_prop String.append
            Recaptcha.create_request Recaptcha.commentData_of skipn].
      rewrite Ht.
      cbn -[truthy js_or get_prop lookup set_prop String.append
            Recaptcha.create_request Recaptcha.commentData_of skipn].
      destruct (Recaptcha.recaptchaInstance (st w)) as [i |] eqn:Hi;
        cbn -[truthy js_or get_prop lookup set_prop String.append
              Recaptcha.create_request Recaptcha.commentData_of skipn].
      * rewrite <- app_assoc, skipn_length_app.
        repeat split; cbn; lia.
      * rewrite skipn_length_app.
        repeat split; cbn; lia.
    + rewrite <- app_assoc, skipn_length_app.
      repeat split; cbn; lia.
Qed.

Lemma pressing_submit_starts_submission_witness :
  Recaptcha.message
    (st (snd (Recaptcha.press_submit sample_props true fresh_page)))
  = VStr "" /\
  Recaptcha.press_submit sample_props false fresh_page
  = (Finished (inr tt), fresh_page).
Proof.
  split.
  - exact (proj1 (proj2 (proj2 (@pressing_submit_starts_submission _
                            sample_props true fresh_page eq_refl) eq_refl))).
  - exact (proj1 (@pressing_submit_starts_submission _
                    sample_props false fresh_page eq_refl) eq_refl).
Defined.
